(** * MarsPro integration: device coordinator, transport facade and BLE codec

    A shallow embedding of
    - [custom_components/marspro/coordinator.py] (MarsProDataUpdateCoordinator),
    - [src/marspro/api.py] (MarsProAPI, the cloud / BLE transport facade),
    - [src/marspro/ble_client_standalone.py] (MarsProBLEClient).

    Python dictionaries with string keys are stdpp [gmap string pyval];
    the device registry [self.devices : Dict[str, Dict[str, Any]]] is a
    [gmap pyval dict] keyed by the value of each device's ["id"] field.
    I/O done by the transports is recorded in explicit traces, and the
    answers of the radio / HTTP peers are explicit inputs. *)

From Stdlib Require Import ZArith List SpecFloat.
From stdpp Require Import base gmap strings list countable.
Import ListNotations.
Open Scope Z_scope.

(* ------------------------------------------------------------------ *)
(** ** Python values and dictionaries *)

Inductive pyval :=
| PNone
| PBool (b : bool)
| PInt (z : Z)
| PFloat (bits : Z)
| PStr (s : string).

#[global] Instance pyval_eq_dec : EqDecision pyval.
Proof. solve_decision. Defined.

Definition pyval_enc (v : pyval) : option (bool + (Z + (Z + string))) :=
  match v with
  | PNone => None
  | PBool b => Some (inl b)
  | PInt z => Some (inr (inl z))
  | PFloat f => Some (inr (inr (inl f)))
  | PStr s => Some (inr (inr (inr s)))
  end.

Definition pyval_dec (o : option (bool + (Z + (Z + string)))) : pyval :=
  match o with
  | None => PNone
  | Some (inl b) => PBool b
  | Some (inr (inl z)) => PInt z
  | Some (inr (inr (inl f))) => PFloat f
  | Some (inr (inr (inr s))) => PStr s
  end.

#[global] Instance pyval_countable : Countable pyval.
Proof.
  apply (inj_countable' pyval_enc pyval_dec). intros []; reflexivity.
Defined.

(** A Python [float] is kept as its IEEE-754 binary64 bit pattern.
    Python truthiness, as used by [if device_id:]. *)
Definition truthy (v : pyval) : bool :=
  match v with
  | PNone => false
  | PBool b => b
  | PInt z => negb (Z.eqb z 0)
  | PFloat f => negb (Z.eqb (Z.land f (Z.ones 63)) 0)
  | PStr s => negb (String.eqb s "")
  end.

(** [Dict[str, Any]] *)
Abbreviation dict := (gmap string pyval).

(** [d.update(s)]: the keys of [s] overwrite those of [d]
    (stdpp's [∪] on maps is left-biased). *)
Definition dict_update (d s : dict) : dict := s ∪ d.

(** The coordinator's registry [self.devices]. *)
Abbreviation registry := (gmap pyval dict).

(** Outcome of a Python call: a value or a raised exception. *)
Inductive exc :=
| UpdateFailed
| ValueError
| TypeError
| IndexError
| RuntimeError
| StructError
| TransportError.

Inductive outcome (A : Type) :=
| Ret (a : A)
| Raise (e : exc).
Arguments Ret {A} a.
Arguments Raise {A} e.

(* ------------------------------------------------------------------ *)
(** ** MarsProDataUpdateCoordinator._async_update_data *)

Module Coordinator.

(** The loop over the listed devices (lines 38-52).  [prior] is
    [self.devices], which the loop only reads; [status_of id] is the
    answer of [self.api.get_device_status(id)] ([None]: it raised). *)
Fixpoint update_loop (prior : registry) (status_of : pyval -> option dict)
    (devices : list dict) (updated : registry) : registry :=
  match devices with
  | [] => updated
  | device :: rest =>
      let updated' :=
        match device !! "id" with
        | Some device_id =>
            if truthy device_id then
              match status_of device_id with
              | Some status =>
                  <[device_id := dict_update device status]> updated
              | None =>
                  match prior !! device_id with
                  | Some old => <[device_id := old]> updated
                  | None => <[device_id := device]> updated
                  end
              end
            else updated
        | None => updated
        end
      in update_loop prior status_of rest updated'
  end.

(** [_async_update_data]: [listing] is the outcome of
    [self.api.get_devices()].  Returns the outcome of the call together
    with the new value of [self.devices]. *)
Definition async_update_data (devices_before : registry)
    (listing : outcome (list dict)) (status_of : pyval -> option dict)
    : outcome registry * registry :=
  match listing with
  | Raise _ => (Raise UpdateFailed, devices_before)
  | Ret devices =>
      let updated := update_loop devices_before status_of devices ∅ in
      (Ret updated, updated)
  end.

(** The host framework's [DataUpdateCoordinator.async_request_refresh]
    (Home Assistant, not part of this repository): the call goes through a
    debouncer ([run_now = false]: inside the cool-down, the refresh is
    scheduled for later and nothing happens now); a refresh runs
    [_async_update_data] inside [_async_refresh], which catches
    [UpdateFailed] (and any other exception), records
    [last_update_success = False] and does not re-raise. *)
Definition async_request_refresh (run_now : bool) (devices_before : registry)
    (listing : outcome (list dict)) (status_of : pyval -> option dict)
    : outcome unit * registry :=
  if run_now then
    match async_update_data devices_before listing status_of with
    | (_, devices_after) => (Ret tt, devices_after)
    end
  else (Ret tt, devices_before).

(** [send_command] (lines 65-76): [api_result] is the outcome of
    [self.api.send_command(device_id, command, **kwargs)]. *)
Definition send_command (devices_before : registry) (api_result : outcome dict)
    (run_now : bool) (listing : outcome (list dict))
    (status_of : pyval -> option dict) : outcome dict * registry :=
  match api_result with
  | Raise e => (Raise e, devices_before)
  | Ret result =>
      match async_request_refresh run_now devices_before listing status_of with
      | (Ret _, devices_after) => (Ret result, devices_after)
      | (Raise e, devices_after) => (Raise e, devices_after)
      end
  end.

(** The coordinator's own state, with the I/O it has issued so far; the
    read accessors are written in a state monad over it. *)
Record coord := mkCoord {
  devices : registry;
  io_log : list string
}.

Definition CM (A : Type) := coord -> A * coord.
#[global] Instance cm_ret : MRet CM := fun A a s => (a, s).
#[global] Instance cm_bind : MBind CM :=
  fun A B k m s => let (a, s') := m s in k a s'.
Definition cm_gets {A} (f : coord -> A) : CM A := fun s => (f s, s).

(** [get_device]: [self.devices.get(device_id, {})]. *)
Definition get_device (device_id : pyval) : CM dict :=
  reg ← cm_gets devices;
  mret (default ∅ (reg !! device_id)).

(** [get_devices]: [list(self.devices.values())] (the registry's order is
    irrelevant, so the values are listed in the map's order). *)
Definition get_devices : CM (list dict) :=
  reg ← cm_gets devices;
  mret (map snd (map_to_list reg)).

(** [get_devices_by_type]: the values whose ["type"] equals the string. *)
Definition get_devices_by_type (device_type : string) : CM (list dict) :=
  reg ← cm_gets devices;
  mret (filter (fun device => device !! "type" = Some (PStr device_type))
            (map snd (map_to_list reg))).

End Coordinator.

(* ------------------------------------------------------------------ *)
(** ** MarsProBLEClient (ble_client_standalone.py) *)

Module BLEClient.

Definition CMD_GET_DEVICE_INFO := 0x01.
Definition CMD_GET_SENSOR_DATA := 0x02.
Definition CMD_SET_LIGHT := 0x10.
Definition CMD_SET_UV_LIGHT := 0x11.
Definition CMD_SET_VEGE_LIGHT := 0x12.
Definition CMD_SET_PPFD := 0x13.
Definition CMD_SET_TEMPERATURE := 0x20.
Definition CMD_SET_HUMIDITY := 0x21.
Definition CMD_SET_CO2 := 0x22.
Definition CMD_SET_FAN := 0x30.
Definition CMD_SET_WIND := 0x31.
Definition CMD_SET_DRIP := 0x40.
Definition CMD_SET_HEATING_PAD := 0x50.
Definition CMD_SET_SOCKET := 0x60.
Definition CMD_SET_AUTO_MODE := 0x70.
Definition CMD_SET_TIMER := 0x80.

(** [struct.pack('B', v)]: an int (a bool counts as 0/1) in 0..255,
    otherwise [struct.error]. *)
Definition pack_B (v : pyval) : outcome (list Z) :=
  match v with
  | PInt z => if (0 <=? z) && (z <=? 255) then Ret [z] else Raise StructError
  | PBool b => Ret [if b then 1 else 0]
  | _ => Raise StructError
  end.

(** [_build_command_packet] (lines 268-286).  [pack_f] stands for
    [struct.pack('f', v)] (four bytes, or an exception).  [bytearray.append]
    raises [ValueError] for a command type outside 0..255. *)
Definition build_command_packet (pack_f : pyval -> outcome (list Z))
    (command_type : Z) (data : dict) : outcome (list Z) :=
  if negb ((0 <=? command_type) && (command_type <=? 255)) then Raise ValueError
  else
    let get key := default (PInt 0) (data !! key) in
    let with_body body :=
      match body with
      | Ret bs => Ret (command_type :: bs)
      | Raise e => Raise e
      end in
    if command_type =? CMD_SET_LIGHT then with_body (pack_B (get "intensity"))
    else if command_type =? CMD_SET_TEMPERATURE then with_body (pack_f (get "temperature"))
    else if command_type =? CMD_SET_HUMIDITY then with_body (pack_f (get "humidity"))
    else Ret [command_type].

(** [MarsProSensorData]; floats as binary64 bit patterns. *)
Record sensor_data := mkSensorData {
  temperature : option Z;
  humidity : option Z;
  co2 : option Z;
  vpd : option Z;
  ppfd : option Z;
  wind_speed : option Z;
  wind_pressure : option Z;
  air_volume : option Z;
  timestamp : option Z
}.

(** [_parse_sensor_data] (lines 230-244): the placeholder values
    25.5, 60.0, 400.0, 1.2, 500.0, 2.5, 1013.25, 100.0 and the event loop's
    clock [now]. *)
Definition parse_sensor_data (data : list Z) (now : Z) : sensor_data :=
  mkSensorData (Some 0x4039800000000000) (Some 0x404e000000000000)
    (Some 0x4079000000000000) (Some 0x3ff3333333333333)
    (Some 0x407f400000000000) (Some 0x4004000000000000)
    (Some 0x408faa0000000000) (Some 0x4059000000000000) (Some now).

(** One GATT service as returned by [get_services()]: its UUID and its
    characteristics (UUID, properties). *)
Definition service := (string * list (string * list string))%type.

(** The client's fields: [self.client] ([None], or a BleakClient whose
    radio link is up or not), [self._connected], [self._services],
    [self._characteristics]. *)
Record ble_state := mkBle {
  client : option bool;
  connected : bool;
  services : gmap string (list (string * list string));
  characteristics : gmap string (list string)
}.

Inductive ble_event := EvConnect | EvGetServices.

Definition store_services (svcs : list service) (s : ble_state) : ble_state :=
  fold_left (fun st (sv : service) =>
      let '(uuid, chars) := sv in
      mkBle (client st) (connected st)
        (<[uuid := chars]> (services st))
        (fold_left (fun m (c : string * list string) => <[fst c := snd c]> m)
           chars (characteristics st)))
    svcs s.

(** [connect] (lines 120-149).  [connect_ok]: [await self.client.connect()]
    returned; [discovered]: the result of [get_services()] ([None]: it
    raised).  Every exception is caught and turned into [return False].
    Returns the outcome, the new state and the calls made to the radio. *)
Definition connect (s : ble_state) (connect_ok : bool)
    (discovered : option (list service))
    : outcome bool * ble_state * list ble_event :=
  let s1 := mkBle (Some false) (connected s) (services s) (characteristics s) in
  if negb connect_ok then (Ret false, s1, [EvConnect])
  else
    let s2 := mkBle (Some true) (connected s1) (services s1) (characteristics s1) in
    match discovered with
    | None => (Ret false, s2, [EvConnect; EvGetServices])
    | Some svcs =>
        let s3 := store_services svcs s2 in
        (Ret true, mkBle (client s3) true (services s3) (characteristics s3),
         [EvConnect; EvGetServices])
    end.

End BLEClient.

(* ------------------------------------------------------------------ *)
(** ** MarsProAPI (api.py): the cloud / BLE transport facade *)

Module API.

(** The client's fields: [use_cloud], [session is not None], [auth_token],
    [ble_mac], and [self.ble_client] ([None], or a BleakClient whose
    [is_connected] is the boolean). *)
Record api_state := mkApi {
  use_cloud : bool;
  session : bool;
  auth_token : option string;
  ble_mac : option string;
  ble_client : option bool
}.

(** The I/O the client issues: HTTP requests (path below
    [API_BASE_URL/API_VERSION]) and GATT operations. *)
Inductive io_event :=
| HttpPost (path : string)
| HttpGet (path : string)
| BleConnect
| BleRead
| BleWrite (payload : list Z).

(** What the peers answer: HTTP status code and body for each endpoint,
    and whether each GATT operation succeeds. *)
Record peer := mkPeer {
  login_response : Z * option string;
  devices_response : Z * list dict;
  status_response : Z * dict;
  control_response : Z * dict;
  ble_connect_ok : bool;
  ble_read_result : option (list Z);
  ble_write_ok : bool
}.

(** A reader / state / error / writer monad for the client's methods. *)
Definition M (A : Type) := peer -> api_state -> outcome A * api_state * list io_event.

#[global] Instance m_ret : MRet M := fun A a _ s => (Ret a, s, []).
#[global] Instance m_bind : MBind M := fun A B k m p s =>
  match m p s with
  | (Ret a, s1, t1) =>
      match k a p s1 with (r, s2, t2) => (r, s2, t1 ++ t2) end
  | (Raise e, s1, t1) => (Raise e, s1, t1)
  end.

Definition raise {A} (e : exc) : M A := fun _ s => (Raise e, s, []).
Definition emit (ev : io_event) : M unit := fun _ s => (Ret tt, s, [ev]).
Definition get_state : M api_state := fun _ s => (Ret s, s, []).
Definition put_state (s : api_state) : M unit := fun _ _ => (Ret tt, s, []).
Definition ask {A} (f : peer -> A) : M A := fun p s => (Ret (f p), s, []).
Definition lift {A} (o : outcome A) : M A :=
  match o with Ret a => mret a | Raise e => raise e end.

Definition set_token (t : option string) (s : api_state) : api_state :=
  mkApi (use_cloud s) (session s) t (ble_mac s) (ble_client s).
Definition set_ble_client (c : option bool) (s : api_state) : api_state :=
  mkApi (use_cloud s) (session s) (auth_token s) (ble_mac s) c.

Definition token_truthy (t : option string) : bool :=
  match t with Some tok => negb (String.eqb tok "") | None => false end.

(** [_authenticate] (lines 84-109). *)
Definition authenticate : M unit :=
  s ← get_state;
  if negb (session s) then raise RuntimeError
  else
    emit (HttpPost "/auth/login");;
    '(code, token) ← ask login_response;
    if code =? 200 then
      put_state (set_token token s);;
      (if token_truthy token then mret tt else raise ValueError)
    else raise ValueError.

(** [if not self.session or not self.auth_token: await self._authenticate()] *)
Definition ensure_auth : M unit :=
  s ← get_state;
  if negb (session s) || negb (token_truthy (auth_token s)) then authenticate
  else mret tt.

(** [_get_devices_cloud] (lines 131-151). *)
Definition get_devices_cloud : M (list dict) :=
  ensure_auth;;
  emit (HttpGet "/devices");;
  '(code, devs) ← ask devices_response;
  if code =? 200 then mret devs else raise ValueError.

(** [_connect_ble] (lines 111-122): the BleakClient is stored before
    [connect] is awaited. *)
Definition connect_ble : M unit :=
  s ← get_state;
  match ble_mac s with
  | None => raise ValueError
  | Some _ =>
      put_state (set_ble_client (Some false) s);;
      emit BleConnect;;
      ask ble_connect_ok ≫= λ connected_ok : bool,
      if connected_ok then put_state (set_ble_client (Some true) s) else raise TransportError
  end.

(** [if not self.ble_client or not self.ble_client.is_connected:
    await self._connect_ble()] *)
Definition ensure_ble : M unit :=
  s ← get_state;
  match ble_client s with
  | Some true => mret tt
  | _ => connect_ble
  end.

(** [bytes([0x02, v])]: an int (bool as 0/1) in 0..255, otherwise
    [ValueError] (out of range) or [TypeError]. *)
Definition byte_of (v : pyval) : outcome Z :=
  match v with
  | PInt z => if (0 <=? z) && (z <=? 255) then Ret z else Raise ValueError
  | PBool b => Ret (if b then 1 else 0)
  | _ => Raise TypeError
  end.

(** [_build_ble_command] (lines 235-248). *)
Definition build_ble_command (command : string) (kwargs : dict) : outcome (list Z) :=
  if String.eqb command "power_on" then Ret [0x01; 0x01]
  else if String.eqb command "power_off" then Ret [0x01; 0x00]
  else if String.eqb command "set_brightness" then
    match byte_of (default (PInt 100) (kwargs !! "brightness")) with
    | Ret b => Ret [0x02; b]
    | Raise e => Raise e
    end
  else Raise ValueError.


(** [_send_command_ble] (lines 214-233). *)
Definition send_command_ble (device_id command : string) (kwargs : dict) : M dict :=
  ensure_ble;;
  payload ← lift (build_ble_command command kwargs);
  emit (BleWrite payload);;
  ask ble_write_ok ≫= λ write_ok : bool,
  if write_ok then mret (<["status" := PStr "success"]> (<["command" := PStr command]> ∅))
  else raise TransportError.

(** [_send_command_cloud] (lines 185-212); the payload carries the command
    name unchecked. *)
Definition send_command_cloud (device_id command : string) (kwargs : dict) : M dict :=
  ensure_auth;;
  emit (HttpPost ("/devices/" ++ device_id ++ "/control"));;
  '(code, body) ← ask control_response;
  if code =? 200 then mret body else raise ValueError.

(** [send_command] (lines 176-183). *)
Definition send_command (device_id command : string) (kwargs : dict) : M dict :=
  s ← get_state;
  if use_cloud s then send_command_cloud device_id command kwargs
  else send_command_ble device_id command kwargs.

(** The parsing part of [_get_device_status_ble] (lines 288-292):
    [status_data[0]] raises [IndexError] on an empty frame. *)
Definition parse_status (status_data : list Z) : outcome dict :=
  match status_data with
  | [] => Raise IndexError
  | b0 :: _ =>
      Ret (<["power" := PStr (if b0 =? 1 then "on" else "off")]>
           (<["brightness" := PInt (if (1 <? Z.of_nat (length status_data))%Z
                                   then nth 1 status_data 0 else 100)]>
            (<["online" := PBool true]> ∅)))
  end.

(** [_get_device_status_ble] (lines 278-297). *)
Definition get_device_status_ble (device_id : string) : M dict :=
  ensure_ble;;
  emit BleRead;;
  ask ble_read_result ≫= λ r : option (list Z),
  match r with
  | None => raise TransportError
  | Some status_data => lift (parse_status status_data)
  end.

End API.

(* ------------------------------------------------------------------ *)
(** ** MarsProBLEClient: the other methods *)

Module BLEClientOps.
Import BLEClient.

Definition COMMAND_CHAR_UUID := "0000ffe1-0000-1000-8000-00805f9b34fb".
Definition DATA_CHAR_UUID := "0000ffe2-0000-1000-8000-00805f9b34fb".
Definition STATUS_CHAR_UUID := "0000ffe4-0000-1000-8000-00805f9b34fb".

(** GATT operations issued after [connect]. *)
Inductive gatt_event :=
| GattDisconnect
| GattRead (uuid : string)
| GattWrite (uuid : string) (payload : list Z)
| GattStartNotify (uuid : string).

(** [if not self._connected or not self.client] *)
Definition ready (s : ble_state) : bool :=
  connected s && bool_decide (is_Some (client s)).

Definition has_char (s : ble_state) (uuid : string) : bool :=
  bool_decide (is_Some (characteristics s !! uuid)).

(** [disconnect] (lines 151-156). *)
Definition disconnect (s : ble_state) : ble_state * list gatt_event :=
  if ready s then
    (mkBle (client s) false (services s) (characteristics s), [GattDisconnect])
  else (s, []).

(** [send_command] (lines 246-266): [write_ok] says whether
    [write_gatt_char] returned; every exception becomes [False]. *)
Definition send_command (pack_f : pyval -> outcome (list Z)) (write_ok : bool)
    (s : ble_state) (command_type : Z) (data : dict) : bool * list gatt_event :=
  if negb (ready s) then (false, [])
  else
    match build_command_packet pack_f command_type data with
    | Raise _ => (false, [])
    | Ret command_data =>
        if has_char s COMMAND_CHAR_UUID then
          (write_ok, [GattWrite COMMAND_CHAR_UUID command_data])
        else (false, [])
    end.

(** [control_light] (lines 304-314). *)
Definition control_light_data (light_type : string) (intensity : Z)
    (duration : option Z) : dict :=
  let base := <["intensity" := PInt intensity]> (<["light_type" := PStr light_type]> ∅) in
  match duration with
  | Some d => if negb (Z.eqb d 0) then <["duration" := PInt d]> base else base
  | None => base
  end.

Definition control_light pack_f write_ok s light_type intensity duration :=
  send_command pack_f write_ok s CMD_SET_LIGHT
    (control_light_data light_type intensity duration).

(** Add [key] when the optional argument [is not None]. *)
Definition put_opt (key : string) (v : option pyval) (d : dict) : dict :=
  match v with Some x => <[key := x]> d | None => d end.

(** [control_climate] (lines 316-329). *)
Definition control_climate_data (temperature humidity fan_speed : option pyval) : dict :=
  put_opt "fan_speed" fan_speed (put_opt "humidity" humidity
    (put_opt "temperature" temperature ∅)).

Definition control_climate pack_f write_ok s temperature humidity fan_speed :=
  send_command pack_f write_ok s CMD_SET_TEMPERATURE
    (control_climate_data temperature humidity fan_speed).

(** [control_water] (lines 331-341). *)
Definition control_water_data (drip_rate flow_rate : option pyval) : dict :=
  put_opt "flow_rate" flow_rate (put_opt "drip_rate" drip_rate ∅).

Definition control_water pack_f write_ok s drip_rate flow_rate :=
  send_command pack_f write_ok s CMD_SET_DRIP (control_water_data drip_rate flow_rate).

(** [MarsProDeviceType], [MarsProFeature], [MarsProDevice]. *)
Inductive device_type := CONTROLLER | SENSOR | ACTUATOR.
Inductive feature := LIGHTING | CLIMATE | WATER | SENSORS | AUTOMATION | AIR | HEATING.

Record marspro_device := mkDevice {
  address : string;
  name : string;
  dev_type : device_type;
  features : list feature;
  firmware_version : option string;
  battery_level : option Z;
  rssi : option Z
}.

(** [read_device_info] (lines 158-192): [read_result] is the answer of
    [read_gatt_char(STATUS_CHAR_UUID)] ([None]: it raised). *)
Definition read_device_info (s : ble_state) (device_address : string)
    (read_result : option (list Z)) : option marspro_device * list gatt_event :=
  if negb (ready s) then (None, [])
  else
    let info := mkDevice device_address "MarsPro Controller" CONTROLLER
                  [LIGHTING; CLIMATE; WATER; AIR; HEATING] (Some "1.3.2") None None in
    if has_char s STATUS_CHAR_UUID then
      match read_result with
      | Some _ => (Some info, [GattRead STATUS_CHAR_UUID])
      | None => (None, [GattRead STATUS_CHAR_UUID])
      end
    else (Some info, []).

(** [read_sensor_data] (lines 194-228); [now] is the event loop's clock. *)
Definition read_sensor_data (s : ble_state) (read_result : option (list Z)) (now : Z)
    : option sensor_data * list gatt_event :=
  if negb (ready s) then (None, [])
  else if has_char s DATA_CHAR_UUID then
    match read_result with
    | Some data => (Some (parse_sensor_data data now), [GattRead DATA_CHAR_UUID])
    | None => (None, [GattRead DATA_CHAR_UUID])
    end
  else
    (Some (mkSensorData (Some 0x4039800000000000) (Some 0x404e000000000000)
      (Some 0x4079000000000000) (Some 0x3ff3333333333333)
      (Some 0x407f400000000000) (Some 0x4004000000000000)
      (Some 0x408faa0000000000) (Some 0x4059000000000000) (Some now)), []).

(** [set_data_callback] (lines 288-295): the flag records whether a
    callback is set; notifications are started when connected and the data
    characteristic is known. *)
Definition set_data_callback (s : ble_state) : bool * list gatt_event :=
  (true, if ready s && has_char s DATA_CHAR_UUID then [GattStartNotify DATA_CHAR_UUID] else []).

(** [_notification_handler] (lines 297-302), run over the notifications in
    arrival order: what the callback receives. *)
Definition notification_handler (callback_set : bool) (notifications : list (list Z * Z))
    : list sensor_data :=
  if callback_set then map (fun '(data, now) => parse_sensor_data data now) notifications
  else [].

End BLEClientOps.

(* ------------------------------------------------------------------ *)
(** ** MarsProDeviceScanner *)

Module Scanner.
Import BLEClient BLEClientOps.

(** Python's [str.lower] on code points 0..255: A-Z and U+00C0..U+00DE
    except U+00D7 move up by 32; nothing else changes. *)
Definition lower_char (c : Ascii.ascii) : Ascii.ascii :=
  let n := Ascii.nat_of_ascii c in
  if (((65 <=? n) && (n <=? 90)) || ((192 <=? n) && (n <=? 222) && negb (n =? 215)))%nat
  then Ascii.ascii_of_nat (n + 32) else c.

Fixpoint lower (s : string) : string :=
  match s with
  | EmptyString => EmptyString
  | String c rest => String (lower_char c) (lower rest)
  end.

(** [needle in hay] for strings. *)
Fixpoint contains (needle hay : string) : bool :=
  String.prefix needle hay ||
  match hay with
  | EmptyString => false
  | String _ rest => contains needle rest
  end.

(** A [BLEDevice] from the scan: address, name (possibly [None]), rssi. *)
Record ble_device := mkBleDevice {
  dev_address : string;
  dev_name : option string;
  dev_rssi : Z
}.

(** [_is_marspro_device] (lines 379-384). *)
Definition is_marspro_device (d : ble_device) : bool :=
  let nm := default "" (dev_name d) in
  contains "marspro" (lower nm) || contains "mars" (lower nm).

(** [device.name or "..."] *)
Definition name_or (n : option string) (dflt : string) : string :=
  match n with
  | Some x => if String.eqb x "" then dflt else x
  | None => dflt
  end.

(** [_create_marspro_device] (lines 386-394). *)
Definition create_marspro_device (d : ble_device) : marspro_device :=
  mkDevice (dev_address d) (name_or (dev_name d) "Unknown MarsPro Device")
    CONTROLLER [LIGHTING; CLIMATE; WATER] None None (Some (dev_rssi d)).

(** [scan_for_devices] (lines 360-377): [discovered] is the outcome of
    [scanner.discover()]; the matches are appended to
    [self.discovered_devices], and that whole list is returned. *)
Definition scan_for_devices (discovered_devices : list marspro_device)
    (discovered : outcome (list ble_device)) : list marspro_device * list marspro_device :=
  match discovered with
  | Raise _ => ([], discovered_devices)
  | Ret devs =>
      let acc := discovered_devices ++ map create_marspro_device (filter is_marspro_device devs) in
      (acc, acc)
  end.

End Scanner.

(* ------------------------------------------------------------------ *)
(** ** MarsProAPI: the other methods *)

Module APIOps.
Import API.

(** Run a method and turn every exception into [False]
    ([except Exception: ... return False]). *)
Definition catch_false (m : M unit) : M bool := fun p s =>
  match m p s with
  | (Ret _, s', t) => (Ret true, s', t)
  | (Raise _, s', t) => (Ret false, s', t)
  end.

Definition set_session (b : bool) (s : api_state) : api_state :=
  mkApi (use_cloud s) b (auth_token s) (ble_mac s) (ble_client s).

(** [_test_cloud_connection] (lines 57-68). *)
Definition test_cloud_connection : M bool :=
  s ← get_state;
  (if session s then mret tt else put_state (set_session true s));;
  catch_false authenticate.

(** [_test_ble_connection] (lines 70-82). *)
Definition test_ble_connection : M bool :=
  s ← get_state;
  match ble_mac s with
  | None => mret false
  | Some _ => catch_false connect_ble
  end.

(** [test_connection] (lines 46-55). *)
Definition test_connection : M bool :=
  s ← get_state;
  if use_cloud s then test_cloud_connection else test_ble_connection.

(** [_get_devices_ble] (lines 153-174): one device, built from the MAC;
    the characteristic read is done but its bytes are not used. *)
Definition ble_device_record (mac : option string) : dict :=
  let mac_v := match mac with Some m => PStr m | None => PNone end in
  let mac_s := match mac with Some m => m | None => "None" end in
  <["id" := mac_v]> (<["name" := PStr ("MarsPro Device (" ++ mac_s ++ ")")]>
  (<["type" := PStr "light"]> (<["status" := PStr "online"]> (<["mac" := mac_v]> ∅)))).

Definition get_devices_ble : M (list dict) :=
  ensure_ble;;
  emit BleRead;;
  ask ble_read_result ≫= λ r : option (list Z),
  match r with
  | None => raise TransportError
  | Some _ => s ← get_state; mret [ble_device_record (ble_mac s)]
  end.

(** [get_devices] (lines 124-129). *)
Definition get_devices : M (list dict) :=
  s ← get_state;
  if use_cloud s then get_devices_cloud else get_devices_ble.

(** [disconnect] (lines 299-307): closing the session and the BLE link. *)
Inductive close_event := SessionClose | BleDisconnect.

Definition disconnect (s : api_state) : api_state * list close_event :=
  let '(s1, t1) := if session s then (set_session false s, [SessionClose]) else (s, []) in
  match ble_client s1 with
  | Some true => (set_ble_client None s1, t1 ++ [BleDisconnect])
  | _ => (s1, t1)
  end.

End APIOps.

(* ------------------------------------------------------------------ *)
(** ** MarsProLight (light.py): state update and brightness scaling *)

Module Light.

Definition prec : Z := 53.
Definition emax : Z := 1024.

(** A binary64 bit pattern as a [spec_float]. *)
Definition float_of_bits (bits : Z) : SpecFloat.spec_float :=
  let sign := Z.testbit bits 63 in
  let ex := Z.land (Z.shiftr bits 52) 2047 in
  let mant := Z.land bits (Z.ones 52) in
  if ex =? 0 then
    match mant with
    | Zpos m => SpecFloat.S754_finite sign m (-1074)
    | _ => SpecFloat.S754_zero sign
    end
  else if ex =? 2047 then
    (if mant =? 0 then SpecFloat.S754_infinity sign else SpecFloat.S754_nan)
  else
    match mant + 2 ^ 52 with
    | Zpos m => SpecFloat.S754_finite sign m (ex - 1075)
    | _ => SpecFloat.S754_nan
    end.

(** The exact value of an int, not yet rounded. *)
Definition exact_int (z : Z) : SpecFloat.spec_float :=
  match z with
  | Z0 => SpecFloat.S754_zero false
  | Zpos m => SpecFloat.S754_finite false m 0
  | Zneg m => SpecFloat.S754_finite true m 0
  end.

(** [float(z)] *)
Definition float_of_int (z : Z) : SpecFloat.spec_float :=
  SpecFloat.binary_normalize prec emax z 0 false.

(** [v / n] for an int or float [v] and an int [n]: Python divides an int
    by an int giving the correctly rounded quotient, and converts the int
    to float when [v] is a float; [None]: [TypeError]. *)
Definition py_div_int (v : pyval) (n : Z) : option SpecFloat.spec_float :=
  match v with
  | PInt z => Some (SpecFloat.SFdiv prec emax (exact_int z) (exact_int n))
  | PBool b => Some (SpecFloat.SFdiv prec emax (exact_int (if b then 1 else 0)) (exact_int n))
  | PFloat bits => Some (SpecFloat.SFdiv prec emax (float_of_bits bits) (float_of_int n))
  | _ => None
  end.

(** [int(x)] for a float: truncation toward zero; [None]: it raises
    ([ValueError] on NaN, [OverflowError] on an infinity). *)
Definition py_int_of_float (x : SpecFloat.spec_float) : option Z :=
  match x with
  | SpecFloat.S754_zero _ => Some 0
  | SpecFloat.S754_finite s m e =>
      let mag := if 0 <=? e then Zpos m * 2 ^ e else Zpos m / 2 ^ (- e) in
      Some (if s then - mag else mag)
  | _ => None
  end.

(** [int((v / n) * k)] *)
Definition scale (v : pyval) (n k : Z) : option Z :=
  match py_div_int v n with
  | Some q => py_int_of_float (SpecFloat.SFmul prec emax q (float_of_int k))
  | None => None
  end.

(** The entity's state: [_attr_is_on], [_attr_brightness]. *)
Record light_state := mkLight { is_on : bool; brightness : Z }.

(** [__init__]: off, full brightness. *)
Definition initial : light_state := mkLight false 255.

(** [_update_from_device_data] (lines 110-118).  [_attr_is_on] is assigned
    before the brightness is computed, so it is kept when that raises. *)
Definition update_from_device_data (st : light_state) (device_data : dict)
    : outcome unit * light_state :=
  let power := default (PStr "off") (device_data !! "power") in
  let on := bool_decide (power = PStr "on") in
  match scale (default (PInt 100) (device_data !! "brightness")) 100 255 with
  | Some b => (Ret tt, mkLight on b)
  | None => (Raise ValueError, mkLight on (brightness st))
  end.

(** [_handle_coordinator_update] (lines 103-108): the flag says whether
    [async_write_ha_state] was called. *)
Definition handle_coordinator_update (st : light_state) (reg : registry)
    (device_id : pyval) : outcome unit * light_state * bool :=
  let device_data := fst (Coordinator.get_device device_id (Coordinator.mkCoord reg [])) in
  if bool_decide (device_data = ∅) then (Ret tt, st, false)
  else
    match update_from_device_data st device_data with
    | (Ret _, st') => (Ret tt, st', true)
    | (Raise e, st') => (Raise e, st', false)
    end.

(** The brightness sent by [async_turn_on] (line 128):
    [int((kwargs[ATTR_BRIGHTNESS] / 255) * 100)]. *)
Definition turn_on_brightness (ha_brightness : pyval) : option Z :=
  scale ha_brightness 255 100.

End Light.

(* ------------------------------------------------------------------ *)
(** ** Auxiliary definitions and concrete inputs *)

(** What one listed device with id [k] writes at [k] during the loop. *)
Definition entry_for (prior : registry) (status_of : pyval -> option dict)
    (k : pyval) (device : dict) : dict :=
  match status_of k with
  | Some status => dict_update device status
  | None => default device (prior !! k)
  end.

Definition dev_A : dict := <["id" := PStr "A"]> ∅.
Definition dev_B : dict := <["id" := PStr "B"]> ∅.
Definition status_A : dict := <["temperature" := PFloat 0x4039800000000000]> ∅.
Definition old_B : dict := <["id" := PStr "B"]> (<["power" := PStr "on"]> ∅).
Definition prior_AB : registry := <[PStr "B" := old_B]> (<[PStr "A" := dev_A]> ∅).
Definition status_AB (k : pyval) : option dict :=
  if decide (k = PStr "A") then Some status_A else None.

Definition drip_1 : dict := <["drip_rate" := PInt 1]> ∅.
Definition drip_2 : dict := <["drip_rate" := PInt 2]> ∅.

(** A float packer that always raises; [CMD_SET_DRIP] never calls it. *)
Definition pack_f_raising (v : pyval) : outcome (list Z) := Raise StructError.

Definition svc_cmd : BLEClient.service :=
  ("0000ffe0-0000-1000-8000-00805f9b34fb",
   [(BLEClientOps.COMMAND_CHAR_UUID, ["write"]); (BLEClientOps.DATA_CHAR_UUID, ["notify"])]).
Definition ble_idle : BLEClient.ble_state := BLEClient.mkBle None false ∅ ∅.
Definition peer_ok : API.peer :=
  API.mkPeer (200, Some "tok") (200, []) (200, ∅) (200, ∅) true (Some [0x01]) true.
Definition peer_401 : API.peer :=
  API.mkPeer (200, Some "tok2") (401, []) (401, ∅) (401, ∅) true None true.
Definition ble_api : API.api_state :=
  API.mkApi false false None (Some "00:11:22:33:44:55") None.
Definition cloud_api : API.api_state := API.mkApi true true (Some "tok") None None.
Definition status_on_100 : dict :=
  <["power" := PStr "on"]> (<["brightness" := PInt 100]> (<["online" := PBool true]> ∅)).

(** [o == Some z] for an optional int. *)
Definition opt_z_eqb (o : option Z) (z : Z) : bool :=
  match o with Some v => Z.eqb v z | None => false end.

Definition light_dev : dict :=
  <["id" := PStr "L"]> (<["power" := PStr "on"]> (<["brightness" := PInt 40]> ∅)).

Definition peer_empty_token : API.peer :=
  API.mkPeer (200, Some "") (200, []) (200, ∅) (200, ∅) true None true.
Definition ble_api_up : API.api_state := API.set_ble_client (Some true) ble_api.
Definition ble_ready : BLEClient.ble_state :=
  snd (fst (BLEClient.connect ble_idle true (Some [svc_cmd]))).

(* ================================================================== *)
(** * Properties *)

(* ------------------------------------------------------------------ *)
(** ** The coordinator's refresh *)

Module CoordinatorFacts.
Import Coordinator.

Lemma update_loop_step prior status_of device rest updated k :
  truthy k = true -> device !! "id" = Some k ->
  update_loop prior status_of (device :: rest) updated
  = update_loop prior status_of rest
      (<[k := entry_for prior status_of k device]> updated).
Proof.
  intros Ht Hid. simpl. rewrite Hid, Ht. unfold entry_for.
  destruct (status_of k); [reflexivity|].
  destruct (prior !! k); reflexivity.
Qed.

(** A device without a truthy id leaves [updated] as it is. *)
Lemma update_loop_skip prior status_of device rest updated :
  (forall k, device !! "id" = Some k -> truthy k = false) ->
  update_loop prior status_of (device :: rest) updated
  = update_loop prior status_of rest updated.
Proof.
  intros Hno. simpl. destruct (device !! "id") as [v|] eqn:E; [|reflexivity].
  rewrite (Hno v eq_refl). reflexivity.
Qed.

(** The loop only ever writes at truthy ids of listed devices. *)
Lemma update_loop_other prior status_of devices updated k :
  (forall d, d ∈ devices -> d !! "id" = Some k -> truthy k = false) \/
  (forall d, d ∈ devices -> d !! "id" <> Some k) ->
  update_loop prior status_of devices updated !! k = updated !! k.
Proof.
  revert updated. induction devices as [|device rest IH]; intros updated Hk;
    [reflexivity|].
  simpl. destruct (device !! "id") as [v|] eqn:E.
  - destruct (truthy v) eqn:Ht.
    + assert (v <> k).
      { intros ->. destruct Hk as [Hk|Hk].
        - rewrite (Hk device ltac:(set_solver) E) in Ht. discriminate.
        - exact (Hk device ltac:(set_solver) E). }
      rewrite IH.
      * destruct (status_of v); [|destruct (prior !! v)];
          apply lookup_insert_ne; congruence.
      * destruct Hk as [Hk|Hk]; [left|right]; intros d Hd; apply Hk; set_solver.
    + apply IH. destruct Hk as [Hk|Hk]; [left|right]; intros d Hd; apply Hk; set_solver.
  - apply IH. destruct Hk as [Hk|Hk]; [left|right]; intros d Hd; apply Hk; set_solver.
Qed.

(** If every listed device with id [k] writes the same record [w] at [k],
    and [k] is listed (or [w] is already there), the loop ends with [w]
    at [k]. *)
Lemma update_loop_const prior status_of devices updated k w :
  truthy k = true ->
  (forall d, d ∈ devices -> d !! "id" = Some k -> entry_for prior status_of k d = w) ->
  (updated !! k = Some w \/ exists d, d ∈ devices /\ d !! "id" = Some k) ->
  update_loop prior status_of devices updated !! k = Some w.
Proof.
  intros Ht. revert updated.
  induction devices as [|device rest IH]; intros updated Hall Hpre.
  - destruct Hpre as [Hpre|[d [Hd _]]]; [exact Hpre|set_solver].
  - destruct (device !! "id") as [v|] eqn:E.
    + destruct (truthy v) eqn:Hv.
      * rewrite (update_loop_step _ _ _ _ _ v Hv E).
        apply IH; [intros d Hd; apply Hall; set_solver|].
        destruct (decide (v = k)) as [->|Hne].
        -- left. rewrite lookup_insert_eq. f_equal. apply Hall; [set_solver|exact E].
        -- destruct Hpre as [Hpre|[d [Hd Hid]]].
           ++ left. rewrite lookup_insert_ne by congruence. exact Hpre.
           ++ apply elem_of_cons in Hd as [->|Hd]; [congruence|].
              right. eauto.
      * rewrite update_loop_skip by (intros k' Hk'; congruence).
        apply IH; [intros d Hd; apply Hall; set_solver|].
        destruct Hpre as [Hpre|[d [Hd Hid]]]; [by left|].
        apply elem_of_cons in Hd as [->|Hd]; [congruence|]. right. eauto.
    + rewrite update_loop_skip by (intros k' Hk'; congruence).
      apply IH; [intros d Hd; apply Hall; set_solver|].
      destruct Hpre as [Hpre|[d [Hd Hid]]]; [by left|].
      apply elem_of_cons in Hd as [->|Hd]; [congruence|]. right. eauto.
Qed.

(** Which keys the loop leaves in the registry it builds. *)
Lemma update_loop_dom prior status_of devices updated k :
  is_Some (update_loop prior status_of devices updated !! k) <->
  is_Some (updated !! k) \/
  (truthy k = true /\ exists d, d ∈ devices /\ d !! "id" = Some k).
Proof.
  revert updated. induction devices as [|device rest IH]; intros updated.
  - split; [by left|]. intros [H|[_ [d [Hd _]]]]; [exact H|set_solver].
  - destruct (device !! "id") as [v|] eqn:E.
    + destruct (truthy v) eqn:Hv.
      * rewrite (update_loop_step _ _ _ _ _ v Hv E), IH.
        destruct (decide (v = k)) as [->|Hne].
        -- rewrite lookup_insert_eq. split; [intros _; right; split; [done|]; exists device; split; [set_solver|done]|].
           intros _. left. eauto.
        -- rewrite lookup_insert_ne by congruence. split.
           ++ intros [H|[Hk [d [Hd Hid]]]]; [by left|right; split; [done|]; exists d; split; [set_solver|done]].
           ++ intros [H|[Hk [d [Hd Hid]]]]; [by left|].
              apply elem_of_cons in Hd as [->|Hd]; [congruence|]. right. eauto.
      * rewrite update_loop_skip by (intros k' Hk'; congruence). rewrite IH. split.
        -- intros [H|[Hk [d [Hd Hid]]]]; [by left|right; split; [done|]; exists d; split; [set_solver|done]].
        -- intros [H|[Hk [d [Hd Hid]]]]; [by left|].
           apply elem_of_cons in Hd as [->|Hd]; [congruence|]. right. eauto.
    + rewrite update_loop_skip by (intros k' Hk'; congruence). rewrite IH. split.
      * intros [H|[Hk [d [Hd Hid]]]]; [by left|right; split; [done|]; exists d; split; [set_solver|done]].
      * intros [H|[Hk [d [Hd Hid]]]]; [by left|].
        apply elem_of_cons in Hd as [->|Hd]; [congruence|]. right. eauto.
Qed.

Lemma update_loop_app prior status_of l1 l2 updated :
  update_loop prior status_of (l1 ++ l2) updated
  = update_loop prior status_of l2 (update_loop prior status_of l1 updated).
Proof.
  revert updated. induction l1 as [|d l1 IH]; intros updated; [reflexivity|].
  simpl. apply IH.
Qed.

(** What the loop stores at a truthy id: the entry built from the last
    listed device with that id, or what [updated] held if none has it. *)
Lemma update_loop_lookup prior status_of devices updated k w :
  truthy k = true ->
  update_loop prior status_of devices updated !! k = Some w <->
  (exists pre d post, devices = pre ++ d :: post /\ d !! "id" = Some k /\
     (forall d', d' ∈ post -> d' !! "id" <> Some k) /\ w = entry_for prior status_of k d) \/
  ((forall d, d ∈ devices -> d !! "id" <> Some k) /\ updated !! k = Some w).
Proof.
  intros Ht. induction devices as [|d l IH] using rev_ind.
  - simpl. split; [intros H; right; split; [intros d Hd; set_solver|exact H]|].
    intros [[pre [d [post [Heq _]]]]|[_ H]]; [|exact H].
    destruct pre; discriminate.
  - rewrite update_loop_app.
    destruct (decide (d !! "id" = Some k)) as [Hid|Hid].
    + rewrite (update_loop_step _ _ _ _ _ k Ht Hid). simpl. rewrite lookup_insert_eq.
      split.
      * intros H. injection H as <-. left. exists l, d, []. split; [done|].
        split; [done|split; [intros d' Hd'; set_solver|done]].
      * intros [[pre [d0 [post [Heq [Hid0 [Hpost ->]]]]]]|[Hno _]].
        -- destruct post as [|x post _] using rev_ind.
           ++ apply app_inj_tail in Heq as [_ ->]. reflexivity.
           ++ rewrite app_comm_cons, app_assoc in Heq.
              apply app_inj_tail in Heq as [_ Hx]. subst x.
              exfalso. apply (Hpost d); [set_solver|exact Hid].
        -- exfalso. apply (Hno d); [set_solver|exact Hid].
    + assert (Hstep : update_loop prior status_of [d] (update_loop prior status_of l updated) !! k
                      = update_loop prior status_of l updated !! k).
      { apply update_loop_other. right. intros d' Hd'.
        apply list_elem_of_singleton in Hd'. subst d'. exact Hid. }
      rewrite Hstep, IH. split.
      * intros [[pre [d0 [post [Heq [Hid0 [Hpost ->]]]]]]|[Hno H]].
        -- left. exists pre, d0, (post ++ [d]). split; [subst l; by rewrite <- app_assoc|].
           split; [done|split; [|done]].
           intros d' Hd'. apply elem_of_app in Hd' as [Hd'|Hd'];
             [by apply Hpost|apply list_elem_of_singleton in Hd'; subst d'; exact Hid].
        -- right. split; [|exact H]. intros d' Hd'.
           apply elem_of_app in Hd' as [Hd'|Hd'];
             [by apply Hno|apply list_elem_of_singleton in Hd'; subst d'; exact Hid].
      * intros [[pre [d0 [post [Heq [Hid0 [Hpost ->]]]]]]|[Hno H]].
        -- left. destruct post as [|x post _] using rev_ind.
           ++ apply app_inj_tail in Heq as [_ ->]. congruence.
           ++ rewrite app_comm_cons, app_assoc in Heq.
              apply app_inj_tail in Heq as [Heq _].
              exists pre, d0, post. split; [exact Heq|split; [done|split; [|done]]].
              intros d' Hd'. apply Hpost. set_solver.
        -- right. split; [|exact H]. intros d' Hd'. apply Hno. set_solver.
Qed.

End CoordinatorFacts.

(** C1: during one refresh in which device A's status read succeeds and
    device B's fails, the registry afterwards maps A to its listed record
    updated with the fresh status and maps B to exactly its previous record. *)
Theorem refresh_partial_failure (prior : registry)
    (status_of : pyval -> option dict) (devices : list dict)
    (a b : pyval) (da db sa rb : dict) :
  truthy a = true -> truthy b = true ->
  da !! "id" = Some a -> db !! "id" = Some b ->
  da ∈ devices -> db ∈ devices ->
  (forall d, d ∈ devices -> d !! "id" = Some a -> d = da) ->
  status_of a = Some sa -> status_of b = None -> prior !! b = Some rb ->
  let after := snd (Coordinator.async_update_data prior (Ret devices) status_of) in
  after !! a = Some (dict_update da sa) /\ after !! b = Some rb.
Proof.
  intros Hta Htb Hida Hidb Ha Hb Honly Hsa Hsb Hrb. simpl. split.
  - apply CoordinatorFacts.update_loop_const; [exact Hta| |right; eauto].
    intros d Hd Hid. unfold entry_for. rewrite Hsa.
    rewrite (Honly d Hd Hid). reflexivity.
  - apply CoordinatorFacts.update_loop_const; [exact Htb| |right; eauto].
    intros d Hd Hid. unfold entry_for. rewrite Hsb, Hrb.
    reflexivity.
Qed.

Lemma refresh_partial_failure_witness :
  let after := snd (Coordinator.async_update_data prior_AB (Ret [dev_A; dev_B]) status_AB) in
  after !! PStr "A" = Some (dict_update dev_A status_A) /\ after !! PStr "B" = Some old_B.
Proof.
  apply (refresh_partial_failure prior_AB status_AB [dev_A; dev_B]
           (PStr "A") (PStr "B") dev_A dev_B status_A old_B);
    try reflexivity; set_solver.
Defined.

(** C2: when the device listing raises, the refresh raises [UpdateFailed]
    and [self.devices] is left exactly as it was. *)
Theorem refresh_list_failure (prior : registry) (e : exc)
    (status_of : pyval -> option dict) :
  Coordinator.async_update_data prior (Raise e) status_of = (Raise UpdateFailed, prior).
Proof. reflexivity. Qed.

(** C4: a command the transport reports as successful is reported as
    successful by the coordinator even when the refresh that follows raises
    [UpdateFailed], and the registry then keeps its pre-command contents. *)
Theorem send_command_refresh_failure (prior : registry) (result : dict)
    (run_now : bool) (listing : outcome (list dict))
    (status_of : pyval -> option dict) :
  fst (Coordinator.async_update_data prior listing status_of) = Raise UpdateFailed ->
  Coordinator.send_command prior (Ret result) run_now listing status_of = (Ret result, prior).
Proof.
  intros Hfail. destruct listing as [devs|e]; [discriminate|].
  destruct run_now; reflexivity.
Qed.

Lemma send_command_refresh_failure_witness :
  fst (Coordinator.async_update_data prior_AB (Raise TransportError) status_AB) = Raise UpdateFailed /\
  Coordinator.send_command prior_AB (Ret (<["status" := PStr "success"]> ∅)) true
    (Raise TransportError) status_AB
  = (Ret (<["status" := PStr "success"]> ∅), prior_AB).
Proof.
  split; [reflexivity|].
  apply send_command_refresh_failure. reflexivity.
Defined.

(** C5 (counterexample): a successful refresh whose listing no longer
    contains a known device removes it, without any device-removed event. *)
Lemma refresh_drops_unlisted :
  is_Some (prior_AB !! PStr "B") /\
  snd (Coordinator.async_update_data prior_AB (Ret [dev_A]) status_AB) !! PStr "B" = None.
Proof. split; [eexists; reflexivity|reflexivity]. Qed.

(** C5 (amended): a failed refresh changes nothing; after a successful
    refresh the registry holds exactly the truthy ids of the listed devices,
    each with the record built from the last listed device with that id:
    the listed record updated with its status, or, when the status read
    fails, the old record if the id was known and the listed record if not.
    So a previously known device stays iff it is listed, and keeps its old
    record when its status read fails. *)
Theorem refresh_registry_keys (prior : registry)
    (status_of : pyval -> option dict) :
  (forall e, snd (Coordinator.async_update_data prior (Raise e) status_of) = prior) /\
  (forall (devices : list dict) (k : pyval),
     is_Some (snd (Coordinator.async_update_data prior (Ret devices) status_of) !! k) <->
     truthy k = true /\ exists d, d ∈ devices /\ d !! "id" = Some k) /\
  (forall (devices : list dict) (k : pyval) (w : dict),
     snd (Coordinator.async_update_data prior (Ret devices) status_of) !! k = Some w <->
     truthy k = true /\
     exists pre d post, devices = pre ++ d :: post /\ d !! "id" = Some k /\
       (forall d', d' ∈ post -> d' !! "id" <> Some k) /\
       w = match status_of k with
           | Some status => dict_update d status
           | None => default d (prior !! k)
           end) /\
  (forall (devices : list dict) (k : pyval) (old : dict),
     truthy k = true -> (exists d, d ∈ devices /\ d !! "id" = Some k) ->
     prior !! k = Some old -> status_of k = None ->
     snd (Coordinator.async_update_data prior (Ret devices) status_of) !! k = Some old).
Proof.
  split; [reflexivity|split; [|split]].
  - intros devices k. simpl. rewrite CoordinatorFacts.update_loop_dom.
    rewrite lookup_empty. split; [intros [[? H]|H]; [discriminate|exact H]|by right].
  - intros devices k w. simpl. destruct (truthy k) eqn:Ht.
    + rewrite (CoordinatorFacts.update_loop_lookup _ _ _ _ _ _ Ht), lookup_empty.
      split.
      * intros [H|[_ H]]; [|discriminate]. split; [done|exact H].
      * intros [_ H]. left. exact H.
    + rewrite CoordinatorFacts.update_loop_other, lookup_empty.
      * split; [discriminate|intros [H _]; discriminate].
      * left. intros d _ _. exact Ht.
  - intros devices k old Ht Hin Hold Hst. simpl.
    apply CoordinatorFacts.update_loop_const; [exact Ht| |right; exact Hin].
    intros d _ _. unfold entry_for. rewrite Hst, Hold. reflexivity.
Qed.

Lemma refresh_registry_keys_witness :
  snd (Coordinator.async_update_data prior_AB (Ret [dev_A; dev_B]) status_AB) !! PStr "B"
  = Some old_B.
Proof.
  apply (proj2 (proj2 (proj2 (refresh_registry_keys prior_AB status_AB)))
           [dev_A; dev_B] (PStr "B") old_B); try reflexivity.
  exists dev_B. split; [set_solver|reflexivity].
Defined.

(** C10: for every id, present or not, the read accessors leave the
    coordinator's state (its registry and its I/O log) as it is;
    [get_device] returns the stored record, and [{}] for an unknown id. *)
Theorem accessors_pure (s : Coordinator.coord) (device_id : pyval) (device_type : string) :
  snd (Coordinator.get_device device_id s) = s /\
  snd (Coordinator.get_devices s) = s /\
  snd (Coordinator.get_devices_by_type device_type s) = s /\
  (forall d, Coordinator.devices s !! device_id = Some d ->
     fst (Coordinator.get_device device_id s) = d) /\
  (Coordinator.devices s !! device_id = None ->
     Coordinator.get_device device_id s = (∅, s)).
Proof.
  unfold Coordinator.get_device. cbv [mbind mret Coordinator.cm_bind
    Coordinator.cm_ret Coordinator.cm_gets].
  split; [reflexivity|split; [reflexivity|split; [reflexivity|split]]].
  - intros d Hd. simpl. rewrite Hd. reflexivity.
  - intros Hnone. rewrite Hnone. reflexivity.
Qed.

Lemma accessors_pure_witness :
  Coordinator.get_device (PStr "C") (Coordinator.mkCoord prior_AB [])
  = (∅, Coordinator.mkCoord prior_AB []) /\
  fst (Coordinator.get_device (PStr "B") (Coordinator.mkCoord prior_AB [])) = old_B.
Proof.
  split.
  - apply (proj2 (proj2 (proj2 (proj2 (accessors_pure (Coordinator.mkCoord prior_AB [])
                                          (PStr "C") "light"))))). reflexivity.
  - apply (proj1 (proj2 (proj2 (proj2 (accessors_pure (Coordinator.mkCoord prior_AB [])
                                          (PStr "B") "light"))))). reflexivity.
Defined.

(* ------------------------------------------------------------------ *)
(** ** The BLE command codec *)

(** C3 (counterexample): two different parameter assignments of
    [CMD_SET_DRIP] (as [control_water] sends them) encode to the same
    one-byte frame [0x40], so no decoder can give the parameters back; and
    the decoder [_parse_sensor_data] returns the same placeholder record
    for the Scenario A frame [0x10, 0x32] as for any other frame.  The
    float packer is never called for [CMD_SET_DRIP]; the one used here
    raises. *)

Lemma codec_roundtrip_fails :
  BLEClient.build_command_packet pack_f_raising BLEClient.CMD_SET_DRIP drip_1 = Ret [0x40] /\
  BLEClient.build_command_packet pack_f_raising BLEClient.CMD_SET_DRIP drip_2 = Ret [0x40] /\
  ~ (exists decode : list Z -> dict,
       forall p, p ∈ [drip_1; drip_2] ->
         BLEClient.build_command_packet pack_f_raising BLEClient.CMD_SET_DRIP p = Ret [0x40] ->
         decode [0x40] = p) /\
  BLEClient.parse_sensor_data [0x10; 0x32] 0 = BLEClient.parse_sensor_data [] 0.
Proof.
  split; [reflexivity|]. split; [reflexivity|]. split; [|reflexivity].
  intros [decode Hdec].
  assert (H1 : decode [0x40] = drip_1) by (apply Hdec; [set_solver|reflexivity]).
  assert (H2 : decode [0x40] = drip_2) by (apply Hdec; [set_solver|reflexivity]).
  rewrite H1 in H2. unfold drip_1, drip_2 in H2.
  assert (H3 : (<["drip_rate" := PInt 1]> (∅ : dict)) !! "drip_rate"
               = (<["drip_rate" := PInt 2]> (∅ : dict)) !! "drip_rate") by (rewrite H2; reflexivity).
  rewrite !lookup_insert_eq in H3. discriminate.
Qed.

(** C3 (amended): [_build_command_packet] emits the opcode byte, then for
    [CMD_SET_LIGHT] the intensity as one unsigned byte ([struct.error] when
    it is not in 0..255, so nothing is built), for [CMD_SET_TEMPERATURE]
    and [CMD_SET_HUMIDITY] the packed float, and for every other opcode
    nothing else; [_parse_sensor_data]
    ignores its frame; and Scenario A encodes to [0x10, 0x32]. *)
Theorem codec_encoding_layout (pack_f : pyval -> outcome (list Z)) :
  (forall (data : dict) (z : Z), data !! "intensity" = Some (PInt z) ->
     BLEClient.build_command_packet pack_f BLEClient.CMD_SET_LIGHT data
     = if (0 <=? z) && (z <=? 255) then Ret [0x10; z] else Raise StructError) /\
  (forall (command_type : Z) (data : dict), 0 <= command_type <= 255 ->
     command_type <> BLEClient.CMD_SET_LIGHT ->
     command_type <> BLEClient.CMD_SET_TEMPERATURE ->
     command_type <> BLEClient.CMD_SET_HUMIDITY ->
     BLEClient.build_command_packet pack_f command_type data = Ret [command_type]) /\
  (forall (data : dict) (bs : list Z),
     pack_f (default (PInt 0) (data !! "temperature")) = Ret bs ->
     BLEClient.build_command_packet pack_f BLEClient.CMD_SET_TEMPERATURE data
     = Ret (BLEClient.CMD_SET_TEMPERATURE :: bs)) /\
  (forall (data : dict) (bs : list Z),
     pack_f (default (PInt 0) (data !! "humidity")) = Ret bs ->
     BLEClient.build_command_packet pack_f BLEClient.CMD_SET_HUMIDITY data
     = Ret (BLEClient.CMD_SET_HUMIDITY :: bs)) /\
  (forall (frame1 frame2 : list Z) (now : Z),
     BLEClient.parse_sensor_data frame1 now = BLEClient.parse_sensor_data frame2 now) /\
  BLEClient.build_command_packet pack_f BLEClient.CMD_SET_LIGHT
    (<["intensity" := PInt 50]> ∅) = Ret [0x10; 0x32].
Proof.
  split; [|split; [|split; [|split; [|split; [reflexivity|reflexivity]]]]].
  - intros data z Hz. unfold BLEClient.build_command_packet. simpl.
    rewrite Hz. simpl. destruct ((0 <=? z) && (z <=? 255)); reflexivity.
  - intros ct data Hrange H1 H2 H3. unfold BLEClient.build_command_packet.
    assert (Hr : (0 <=? ct) && (ct <=? 255) = true)
      by (apply andb_true_intro; split; apply Z.leb_le; lia).
    rewrite Hr. simpl.
    apply Z.eqb_neq in H1, H2, H3. rewrite H1, H2, H3. reflexivity.
  - intros data bs Hbs. unfold BLEClient.build_command_packet. simpl.
    rewrite Hbs. reflexivity.
  - intros data bs Hbs. unfold BLEClient.build_command_packet. simpl.
    rewrite Hbs. reflexivity.
Qed.

Lemma codec_encoding_layout_witness :
  BLEClient.build_command_packet (fun _ => Raise StructError) BLEClient.CMD_SET_FAN
    (<["fan_speed" := PInt 3]> ∅) = Ret [0x30] /\
  BLEClient.build_command_packet (fun _ => Raise StructError) BLEClient.CMD_SET_LIGHT
    (<["intensity" := PInt 300]> ∅) = Raise StructError.
Proof.
  destruct (codec_encoding_layout (fun _ => Raise StructError)) as [Hl [Ho _]].
  split.
  - apply Ho; unfold BLEClient.CMD_SET_FAN, BLEClient.CMD_SET_LIGHT,
      BLEClient.CMD_SET_TEMPERATURE, BLEClient.CMD_SET_HUMIDITY; lia.
  - rewrite (Hl _ 300); reflexivity.
Defined.

(* ------------------------------------------------------------------ *)
(** ** BLE connect *)

(** C6 (counterexample): when [client.connect()] fails, [connect] returns
    [False] instead of raising; when service discovery fails after the
    radio link came up, it also returns [False] and leaves that link up. *)
Lemma connect_failure_returns_false :
  (let '(r, _, _) := BLEClient.connect ble_idle false None in r = Ret false) /\
  (let '(r, s', _) := BLEClient.connect ble_idle true None in
   r = Ret false /\ BLEClient.client s' = Some true).
Proof. split; [reflexivity|split; reflexivity]. Qed.

(** C6 (amended): [connect] returns [True] only after connecting and
    discovering the services, and then [is_connected] is [True]; on any
    step failure it returns [False] without raising and does not change
    [is_connected]; a radio link that came up before discovery failed is
    left up. *)
Theorem connect_contract (s : BLEClient.ble_state) (connect_ok : bool)
    (discovered : option (list BLEClient.service)) :
  let '(r, s', trace) := BLEClient.connect s connect_ok discovered in
  (r = Ret true ->
     connect_ok = true /\ is_Some discovered /\
     trace = [BLEClient.EvConnect; BLEClient.EvGetServices] /\
     BLEClient.connected s' = true) /\
  (r <> Ret true -> r = Ret false /\ BLEClient.connected s' = BLEClient.connected s) /\
  (connect_ok = true -> discovered = None -> BLEClient.client s' = Some true) /\
  (forall e, r <> Raise e).
Proof.
  unfold BLEClient.connect. destruct connect_ok; simpl.
  - destruct discovered as [svcs|]; simpl.
    + split; [intros _; repeat split; eauto|].
      split; [intros H; congruence|].
      split; [intros _ H; discriminate|intros e; discriminate].
    + split; [intros H; discriminate|].
      split; [intros _; split; reflexivity|].
      split; [reflexivity|intros e; discriminate].
  - split; [intros H; discriminate|].
    split; [intros _; split; reflexivity|].
    split; [intros H; discriminate|intros e; discriminate].
Qed.

Lemma connect_contract_witness :
  let '(r, s', trace) := BLEClient.connect ble_idle true (Some [("0000ffe0", [])]) in
  r = Ret true /\ BLEClient.connected s' = true.
Proof.
  pose proof (connect_contract ble_idle true (Some [("0000ffe0", [])])) as H.
  simpl in H |- *. destruct H as [H _]. destruct (H eq_refl) as [_ [_ [_ Hc]]].
  split; [reflexivity|exact Hc].
Defined.

(* ------------------------------------------------------------------ *)
(** ** The transport facade *)

(** C7 (counterexample): the one-byte status frame [0x01] is not rejected:
    the missing brightness byte is replaced by the default 100. *)
Lemma status_short_frame_defaulted :
  API.parse_status [0x01] = Ret status_on_100 /\
  API.get_device_status_ble "00:11:22:33:44:55" peer_ok ble_api
  = (Ret status_on_100, API.set_ble_client (Some true) ble_api, [API.BleConnect; API.BleRead]).
Proof. split; reflexivity. Qed.

(** C7 (amended): an empty status frame raises [IndexError]; a one-byte
    frame decodes with brightness defaulted to 100; a longer frame takes
    the brightness from its second byte (later bytes are ignored); the
    power is "on" iff the first byte is 1. *)
Theorem status_frame_decoding :
  API.parse_status [] = Raise IndexError /\
  (forall b0 : Z, API.parse_status [b0] =
     Ret (<["power" := PStr (if b0 =? 1 then "on" else "off")]>
          (<["brightness" := PInt 100]> (<["online" := PBool true]> ∅)))) /\
  (forall (b0 b1 : Z) (rest : list Z), API.parse_status (b0 :: b1 :: rest) =
     Ret (<["power" := PStr (if b0 =? 1 then "on" else "off")]>
          (<["brightness" := PInt b1]> (<["online" := PBool true]> ∅)))).
Proof.
  split; [reflexivity|split; [intros b0; reflexivity|]].
  intros b0 b1 rest. unfold API.parse_status.
  replace (1 <? Z.of_nat (length (b0 :: b1 :: rest))) with true
    by (symmetry; apply Z.ltb_lt; simpl; lia).
  reflexivity.
Qed.



(** C9 (counterexample): with a cached token, a 401 answer to the device
    listing raises [ValueError] at once: the token stays cached and no
    login is attempted. *)
Lemma cloud_401_no_reauth :
  API.get_devices_cloud peer_401 cloud_api
  = (Raise ValueError, cloud_api, [API.HttpGet "/devices"]).
Proof. reflexivity. Qed.

(** C9 (amended): with a session and no cached token the listing call
    logs in first; without a session it raises [RuntimeError] before any
    request; with a cached token any non-200 answer (401 included) raises
    [ValueError], keeps the token and makes no further request. *)
Theorem cloud_auth_behaviour :
  (forall (p : API.peer) (s : API.api_state),
     API.session s = true -> API.auth_token s = None ->
     exists rest, snd (API.get_devices_cloud p s) = API.HttpPost "/auth/login" :: rest) /\
  (forall (p : API.peer) (s : API.api_state),
     API.session s = false -> API.get_devices_cloud p s = (Raise RuntimeError, s, [])) /\
  (forall (p : API.peer) (s : API.api_state),
     API.session s = true -> API.token_truthy (API.auth_token s) = true ->
     fst (API.devices_response p) <> 200 ->
     API.get_devices_cloud p s = (Raise ValueError, s, [API.HttpGet "/devices"])).
Proof.
  unfold API.get_devices_cloud, API.ensure_auth, API.authenticate.
  cbv [mbind mret API.m_bind API.m_ret API.get_state API.put_state API.raise
       API.emit API.ask].
  split; [|split].
  - intros p [uc ses tok mac cl] Hs Ht; simpl in *; subst ses tok. simpl.
    destruct (API.login_response p) as [code token]. simpl.
    destruct (code =? 200); simpl; [|eexists; reflexivity].
    destruct (API.token_truthy token); simpl; [|eexists; reflexivity].
    destruct (API.devices_response p) as [c devs]. simpl.
    destruct (c =? 200); eexists; reflexivity.
  - intros p [uc ses tok mac cl] Hs; simpl in *; subst ses. reflexivity.
  - intros p [uc ses tok mac cl] Hs Ht Hc; simpl in *; subst ses. rewrite Ht. simpl.
    destruct (API.devices_response p) as [c devs]. simpl in *.
    apply Z.eqb_neq in Hc. rewrite Hc. reflexivity.
Qed.


Lemma cloud_auth_behaviour_witness :
  API.session (API.mkApi true true None None None) = true /\
  API.auth_token (API.mkApi true true None None None) = None /\
  exists rest, snd (API.get_devices_cloud peer_ok (API.mkApi true true None None None))
               = API.HttpPost "/auth/login" :: rest.
Proof.
  split; [reflexivity|split; [reflexivity|]].
  apply (proj1 cloud_auth_behaviour peer_ok (API.mkApi true true None None None));
    reflexivity.
Defined.

(* ================================================================== *)
(** * Further properties of the code *)

(** Checking a boolean property on 0..n-1 closes it for every integer there. *)
Lemma forall_range (P : Z -> bool) (n : nat) :
  forallb P (map Z.of_nat (seq 0 n)) = true ->
  forall z, 0 <= z < Z.of_nat n -> P z = true.
Proof.
  intros H z Hz. rewrite forallb_forall in H. apply H.
  apply in_map_iff. exists (Z.to_nat z). split; [lia|apply in_seq; lia].
Qed.

Lemma opt_z_eqb_spec (o : option Z) (z : Z) : opt_z_eqb o z = true -> o = Some z.
Proof. destruct o; simpl; [intros H; apply Z.eqb_eq in H; congruence|discriminate]. Qed.

(** A device seen for the first time whose status read fails is still
    added, with the record the listing gave. *)
Theorem refresh_new_device_failed_status (prior : registry)
    (status_of : pyval -> option dict) (devices : list dict) (k : pyval) (d : dict) :
  truthy k = true -> d ∈ devices -> d !! "id" = Some k ->
  (forall d', d' ∈ devices -> d' !! "id" = Some k -> d' = d) ->
  status_of k = None -> prior !! k = None ->
  snd (Coordinator.async_update_data prior (Ret devices) status_of) !! k = Some d.
Proof.
  intros Ht Hd Hid Honly Hs Hp. simpl.
  apply CoordinatorFacts.update_loop_const; [exact Ht| |right; eauto].
  intros d' Hd' Hid'. unfold entry_for. rewrite Hs, Hp. simpl. eauto.
Qed.

Lemma refresh_new_device_failed_status_witness :
  snd (Coordinator.async_update_data ∅ (Ret [dev_B]) status_AB) !! PStr "B" = Some dev_B.
Proof.
  apply (refresh_new_device_failed_status ∅ status_AB [dev_B] (PStr "B") dev_B);
    try reflexivity; set_solver.
Defined.

Lemma update_loop_prior_irrelevant prior1 prior2 status_of devices updated :
  (forall d k, d ∈ devices -> d !! "id" = Some k -> truthy k = true -> is_Some (status_of k)) ->
  Coordinator.update_loop prior1 status_of devices updated
  = Coordinator.update_loop prior2 status_of devices updated.
Proof.
  revert updated. induction devices as [|device rest IH]; intros updated Hall; [reflexivity|].
  simpl. destruct (device !! "id") as [v|] eqn:E.
  - destruct (truthy v) eqn:Ht.
    + destruct (status_of v) as [st|] eqn:Hs.
      * apply IH. intros d k Hd. apply Hall. set_solver.
      * destruct (Hall device v ltac:(set_solver) E Ht) as [x Hx]. congruence.
    + apply IH. intros d k Hd. apply Hall. set_solver.
  - apply IH. intros d k Hd. apply Hall. set_solver.
Qed.

(** When every listed device's status read succeeds, the refreshed
    registry does not depend on the registry before the refresh. *)
Theorem refresh_all_fresh (prior1 prior2 : registry)
    (status_of : pyval -> option dict) (devices : list dict) :
  (forall d k, d ∈ devices -> d !! "id" = Some k -> truthy k = true -> is_Some (status_of k)) ->
  snd (Coordinator.async_update_data prior1 (Ret devices) status_of)
  = snd (Coordinator.async_update_data prior2 (Ret devices) status_of).
Proof. intros H. simpl. apply update_loop_prior_irrelevant. exact H. Qed.

Lemma refresh_all_fresh_witness :
  snd (Coordinator.async_update_data prior_AB (Ret [dev_A]) status_AB)
  = snd (Coordinator.async_update_data ∅ (Ret [dev_A]) status_AB).
Proof.
  apply refresh_all_fresh. intros d k Hd Hid Ht.
  apply list_elem_of_singleton in Hd. subst d. unfold dev_A in Hid.
  rewrite lookup_insert_eq in Hid. injection Hid as <-. eexists. reflexivity.
Defined.

(** [get_devices] lists exactly the registry's records, one per id. *)
Theorem get_devices_values (s : Coordinator.coord) :
  (forall d, d ∈ fst (Coordinator.get_devices s) <->
             exists k, Coordinator.devices s !! k = Some d) /\
  length (fst (Coordinator.get_devices s)) = size (Coordinator.devices s).
Proof.
  cbv [Coordinator.get_devices mbind mret Coordinator.cm_bind Coordinator.cm_ret
       Coordinator.cm_gets fst].
  split.
  - intros d. rewrite list_elem_of_fmap. split.
    + intros [[k v] [-> Hin]]. apply elem_of_map_to_list in Hin. eauto.
    + intros [k Hk]. exists (k, d). split; [reflexivity|]. by apply elem_of_map_to_list.
  - rewrite length_map. apply length_map_to_list.
Qed.

(** [get_devices_by_type t] lists exactly the registry's records whose
    ["type"] is the string [t]. *)
Theorem get_devices_by_type_members (s : Coordinator.coord) (t : string) (d : dict) :
  d ∈ fst (Coordinator.get_devices_by_type t s) <->
  (exists k, Coordinator.devices s !! k = Some d) /\ d !! "type" = Some (PStr t).
Proof.
  cbv [Coordinator.get_devices_by_type mbind mret Coordinator.cm_bind Coordinator.cm_ret
       Coordinator.cm_gets fst].
  rewrite list_elem_of_filter, list_elem_of_fmap. split.
  - intros [Ht [[k v] [-> Hin]]]. apply elem_of_map_to_list in Hin. eauto.
  - intros [[k Hk] Ht]. split; [exact Ht|]. exists (k, d). split; [reflexivity|].
    by apply elem_of_map_to_list.
Qed.

(** The light's brightness scaling, computed in binary64 as Python does:
    a device brightness [b] in 0..100 becomes [b * 255 / 100] rounded
    down, and a host brightness [x] in 0..255 sent by [async_turn_on]
    becomes [x * 100 / 255] rounded down (no rounding error of the float
    computation shows up). *)
Theorem light_brightness_scaling :
  (forall b, 0 <= b <= 100 -> Light.scale (PInt b) 100 255 = Some (b * 255 / 100)) /\
  (forall x, 0 <= x <= 255 -> Light.turn_on_brightness (PInt x) = Some (x * 100 / 255)).
Proof.
  split.
  - intros b Hb.
    pose proof (forall_range
      (fun b => opt_z_eqb (Light.scale (PInt b) 100 255) (b * 255 / 100)) 101
      ltac:(vm_compute; reflexivity) b ltac:(lia)) as H.
    apply opt_z_eqb_spec in H. exact H.
  - intros x Hx.
    pose proof (forall_range
      (fun x => opt_z_eqb (Light.turn_on_brightness (PInt x)) (x * 100 / 255)) 256
      ltac:(vm_compute; reflexivity) x ltac:(lia)) as H.
    apply opt_z_eqb_spec in H. exact H.
Qed.

Lemma light_brightness_scaling_witness :
  Light.scale (PInt 50) 100 255 = Some 127 /\ Light.turn_on_brightness (PInt 127) = Some 49.
Proof.
  destruct light_brightness_scaling as [H1 H2].
  split; [apply (H1 50)|apply (H2 127)]; lia.
Defined.

(** Reading a device brightness into the light and sending it back with
    [async_turn_on] gives the same value only for 0, 20, 40, 60, 80, 100:
    every other value in 0..100 comes back one lower or more. *)
Theorem light_brightness_round_trip (b : Z) :
  0 <= b <= 100 ->
  (Light.turn_on_brightness (PInt (b * 255 / 100)) = Some b <-> b mod 20 = 0) /\
  (forall b', Light.turn_on_brightness (PInt (b * 255 / 100)) = Some b' -> b' <= b).
Proof.
  intros Hb.
  pose proof (forall_range
    (fun b => Bool.eqb (opt_z_eqb (Light.turn_on_brightness (PInt (b * 255 / 100))) b)
                       (b mod 20 =? 0)
              && match Light.turn_on_brightness (PInt (b * 255 / 100)) with
                 | Some b' => b' <=? b | None => false end) 101
    ltac:(vm_compute; reflexivity) b ltac:(lia)) as H.
  apply andb_true_iff in H as [H1 H2]. apply Bool.eqb_prop in H1.
  split.
  - split; intros Hx.
    + rewrite Hx in H1. simpl in H1. rewrite Z.eqb_refl in H1.
      symmetry in H1. apply Z.eqb_eq in H1. exact H1.
    + apply Z.eqb_eq in Hx. rewrite Hx in H1. apply opt_z_eqb_spec. exact H1.
  - intros b' Hb'. rewrite Hb' in H2. apply Z.leb_le. exact H2.
Qed.

Lemma light_brightness_round_trip_witness :
  Light.turn_on_brightness (PInt (50 * 255 / 100)) <> Some 50.
Proof.
  destruct (light_brightness_round_trip 50 ltac:(lia)) as [[H _] _].
  intros Hc. apply H in Hc. discriminate.
Defined.

(** A coordinator update for a device the registry does not hold leaves
    the light's state as it is and writes no state; for a held record with
    power "on" and an int brightness [b] in 0..100 the light becomes on
    with brightness [b * 255 / 100]. *)
Theorem light_coordinator_update (st : Light.light_state) (reg : registry)
    (device_id : pyval) :
  (reg !! device_id = None -> Light.handle_coordinator_update st reg device_id = (Ret tt, st, false)) /\
  (forall (d : dict) (b : Z), reg !! device_id = Some d ->
     d !! "power" = Some (PStr "on") -> d !! "brightness" = Some (PInt b) -> 0 <= b <= 100 ->
     Light.handle_coordinator_update st reg device_id
     = (Ret tt, Light.mkLight true (b * 255 / 100), true)).
Proof.
  split.
  - intros Hn. unfold Light.handle_coordinator_update.
    cbv [Coordinator.get_device mbind mret Coordinator.cm_bind Coordinator.cm_ret
         Coordinator.cm_gets fst Coordinator.devices]. rewrite Hn. simpl.
    rewrite bool_decide_eq_true_2 by reflexivity. reflexivity.
  - intros d b Hd Hp Hbr Hb. unfold Light.handle_coordinator_update.
    cbv [Coordinator.get_device mbind mret Coordinator.cm_bind Coordinator.cm_ret
         Coordinator.cm_gets fst Coordinator.devices]. rewrite Hd. simpl.
    rewrite bool_decide_eq_false_2.
    + unfold Light.update_from_device_data. rewrite Hp, Hbr. simpl.
      rewrite (proj1 light_brightness_scaling b Hb). reflexivity.
    + intros ->. rewrite lookup_empty in Hp. discriminate.
Qed.

Lemma light_coordinator_update_witness :
  Light.handle_coordinator_update Light.initial (<[PStr "L" := light_dev]> ∅) (PStr "L")
  = (Ret tt, Light.mkLight true 102, true) /\
  Light.handle_coordinator_update Light.initial ∅ (PStr "L") = (Ret tt, Light.initial, false).
Proof.
  destruct (light_coordinator_update Light.initial (<[PStr "L" := light_dev]> ∅) (PStr "L"))
    as [_ H2].
  split.
  - apply (H2 light_dev 40); [reflexivity|reflexivity|reflexivity|lia].
  - apply (proj1 (light_coordinator_update Light.initial ∅ (PStr "L"))). reflexivity.
Defined.

(* ------------------------------------------------------------------ *)
(** ** The transport facade: connection tests, commands, disconnect *)

Ltac run_api :=
  cbv [mbind mret API.m_bind API.m_ret API.get_state API.put_state API.raise
       API.emit API.ask API.lift APIOps.catch_false] in *; simpl in *.



(** After a successful cloud connection test the token is cached, so the
    device listing that follows sends only its own request. *)
Theorem cloud_test_then_list (p : API.peer) (s : API.api_state) :
  API.use_cloud s = true ->
  fst (fst (APIOps.test_connection p s)) = Ret true ->
  snd (API.get_devices_cloud p (snd (fst (APIOps.test_connection p s)))) = [API.HttpGet "/devices"].
Proof.
  destruct s as [uc ses tok mac cl]. simpl. intros ->.
  destruct p as [[code token] [c devs] sr cr bok brd bwo].
  unfold APIOps.test_connection, APIOps.test_cloud_connection,
    API.get_devices_cloud, API.ensure_auth, API.authenticate.
  run_api.
  destruct ses; simpl; destruct (code =? 200); simpl; try discriminate;
    destruct (API.token_truthy token) eqn:Ht; simpl; try discriminate; intros _;
    rewrite Ht; simpl; destruct (c =? 200); reflexivity.
Qed.

Lemma cloud_test_then_list_witness :
  snd (API.get_devices_cloud peer_ok
        (snd (fst (APIOps.test_connection peer_ok (API.mkApi true false None None None)))))
  = [API.HttpGet "/devices"].
Proof. apply cloud_test_then_list; reflexivity. Defined.

(** A login answered 200 with an empty token raises [ValueError] but
    still stores the empty token; since it is falsy, the next listing
    logs in again. *)
Theorem empty_token_relogin (p : API.peer) (s : API.api_state) :
  API.session s = true -> API.login_response p = (200, Some "") ->
  API.authenticate p s = (Raise ValueError, API.set_token (Some "") s, [API.HttpPost "/auth/login"]) /\
  exists rest, snd (API.get_devices_cloud p (API.set_token (Some "") s))
               = API.HttpPost "/auth/login" :: rest.
Proof.
  destruct s as [uc ses tok mac cl]. simpl. intros -> Hl.
  destruct p as [lr [c devs] sr cr bok brd bwo]. simpl in Hl. subst lr.
  unfold API.get_devices_cloud, API.ensure_auth, API.authenticate.
  run_api. simpl. split; [reflexivity|]. eexists. reflexivity.
Qed.

Lemma empty_token_relogin_witness :
  exists rest, snd (API.get_devices_cloud peer_empty_token (API.set_token (Some "") cloud_api))
               = API.HttpPost "/auth/login" :: rest.
Proof. apply (proj2 (empty_token_relogin peer_empty_token cloud_api eq_refl eq_refl)). Defined.

(** Over a connected BLE link, [set_brightness] writes [0x02, b] for an int
    [b] in 0..255, writes [0x02, 100] when no brightness is given, and for
    an int outside 0..255 raises [ValueError] without writing. *)
Theorem ble_set_brightness (p : API.peer) (s : API.api_state) (device_id : string) (kwargs : dict) :
  API.use_cloud s = false -> API.ble_client s = Some true -> API.ble_write_ok p = true ->
  let ok := <["status" := PStr "success"]> (<["command" := PStr "set_brightness"]> ∅) in
  (forall b, kwargs !! "brightness" = Some (PInt b) -> 0 <= b <= 255 ->
     API.send_command device_id "set_brightness" kwargs p s = (Ret ok, s, [API.BleWrite [0x02; b]])) /\
  (kwargs !! "brightness" = None ->
     API.send_command device_id "set_brightness" kwargs p s = (Ret ok, s, [API.BleWrite [0x02; 100]])) /\
  (forall b, kwargs !! "brightness" = Some (PInt b) -> ~ (0 <= b <= 255) ->
     API.send_command device_id "set_brightness" kwargs p s = (Raise ValueError, s, [])).
Proof.
  destruct s as [uc ses tok mac cl]. destruct p as [lr dr sr cr bok brd bwo].
  simpl. intros -> -> ->.
  unfold API.send_command, API.send_command_ble, API.ensure_ble, API.build_ble_command.
  run_api.
  split; [|split].
  - intros b Hk Hb. rewrite Hk. simpl.
    replace ((0 <=? b) && (b <=? 255)) with true
      by (symmetry; apply andb_true_intro; split; apply Z.leb_le; lia).
    reflexivity.
  - intros Hk. rewrite Hk. reflexivity.
  - intros b Hk Hb. rewrite Hk. simpl.
    replace ((0 <=? b) && (b <=? 255)) with false; [reflexivity|].
    symmetry. apply not_true_iff_false. intros H.
    apply andb_true_iff in H as [H1 H2]. apply Z.leb_le in H1, H2. lia.
Qed.

Lemma ble_set_brightness_witness :
  API.send_command "A" "set_brightness" (<["brightness" := PInt 300]> ∅) peer_ok ble_api_up
  = (Raise ValueError, ble_api_up, []).
Proof.
  apply (proj2 (proj2 (ble_set_brightness peer_ok ble_api_up "A"
                         (<["brightness" := PInt 300]> ∅) eq_refl eq_refl eq_refl)) 300);
    [reflexivity|lia].
Defined.



(** [disconnect] leaves no open session and no connected BLE client, and
    a second [disconnect] does nothing. *)
Theorem api_disconnect_idempotent (s : API.api_state) :
  API.session (fst (APIOps.disconnect s)) = false /\
  API.ble_client (fst (APIOps.disconnect s)) <> Some true /\
  APIOps.disconnect (fst (APIOps.disconnect s)) = (fst (APIOps.disconnect s), []).
Proof.
  destruct s as [uc [] tok mac [[]|]]; unfold APIOps.disconnect; simpl;
    repeat split; discriminate.
Qed.

(** With a connected link and a successful read, the BLE listing is one
    device whose id is the configured MAC and whose type is "light"; a
    refresh over it leaves exactly that id in the registry. *)
Theorem ble_listing_single_device (p : API.peer) (s : API.api_state) (mac : string)
    (bytes : list Z) (prior : registry) (status_of : pyval -> option dict) :
  API.ble_client s = Some true -> API.ble_read_result p = Some bytes ->
  API.ble_mac s = Some mac -> mac <> "" ->
  APIOps.get_devices_ble p s = (Ret [APIOps.ble_device_record (Some mac)], s, [API.BleRead]) /\
  APIOps.ble_device_record (Some mac) !! "id" = Some (PStr mac) /\
  APIOps.ble_device_record (Some mac) !! "type" = Some (PStr "light") /\
  (forall k, is_Some (snd (Coordinator.async_update_data prior
                             (Ret [APIOps.ble_device_record (Some mac)]) status_of) !! k)
             <-> k = PStr mac).
Proof.
  destruct s as [uc ses tok m cl]. destruct p as [lr dr sr cr bok brd bwo].
  cbn [API.ble_client API.ble_read_result API.ble_mac]. intros -> -> -> Hne.
  split; [|split; [reflexivity|split; [reflexivity|]]].
  - unfold APIOps.get_devices_ble, API.ensure_ble. run_api. reflexivity.
  - intros k. cbn [snd Coordinator.async_update_data].
    rewrite CoordinatorFacts.update_loop_dom, lookup_empty. split.
    + intros [[? H]|[_ [d [Hd Hid]]]]; [discriminate|].
      apply list_elem_of_singleton in Hd. subst d.
      assert (Hid0 : APIOps.ble_device_record (Some mac) !! "id" = Some (PStr mac)) by reflexivity.
      congruence.
    + intros ->. right. split.
      * simpl. destruct (String.eqb mac "") eqn:E; [apply String.eqb_eq in E; congruence|reflexivity].
      * exists (APIOps.ble_device_record (Some mac)). split; [set_solver|reflexivity].
Qed.

Lemma ble_listing_single_device_witness :
  APIOps.get_devices_ble peer_ok ble_api_up
  = (Ret [APIOps.ble_device_record (Some "00:11:22:33:44:55")], ble_api_up, [API.BleRead]).
Proof.
  apply (proj1 (ble_listing_single_device peer_ok ble_api_up "00:11:22:33:44:55" [0x01] ∅
                  (fun _ => None) eq_refl eq_refl eq_refl ltac:(discriminate))).
Defined.

(** [store_services] records a characteristic exactly when it was already
    known or one of the discovered services lists it. *)
Lemma store_chars_known (chars : list (string * list string)) (m : gmap string (list string)) uuid :
  is_Some (fold_left (fun m (c : string * list string) => <[fst c := snd c]> m) chars m !! uuid)
  <-> is_Some (m !! uuid) \/ exists c, c ∈ chars /\ fst c = uuid.
Proof.
  revert m. induction chars as [|c rest IH]; intros m; simpl.
  - split; [by left|]. intros [H|[c [Hc _]]]; [exact H|set_solver].
  - rewrite IH. destruct (decide (fst c = uuid)) as [<-|Hne].
    + rewrite lookup_insert_eq. split; [intros _; right; exists c; split; [set_solver|done]|].
      intros _. left. eauto.
    + rewrite lookup_insert_ne by exact Hne. split.
      * intros [H|[c' [Hc' Hf]]]; [by left|right; exists c'; split; [set_solver|done]].
      * intros [H|[c' [Hc' Hf]]]; [by left|].
        apply elem_of_cons in Hc' as [->|Hc']; [congruence|]. right. eauto.
Qed.

Lemma store_services_chars (svcs : list BLEClient.service) (s : BLEClient.ble_state) uuid :
  BLEClient.client (BLEClient.store_services svcs s) = BLEClient.client s /\
  BLEClient.connected (BLEClient.store_services svcs s) = BLEClient.connected s /\
  (is_Some (BLEClient.characteristics (BLEClient.store_services svcs s) !! uuid)
   <-> is_Some (BLEClient.characteristics s !! uuid) \/
       exists sv c, sv ∈ svcs /\ c ∈ snd sv /\ fst c = uuid).
Proof.
  revert s. induction svcs as [|[u chars] rest IH]; intros s; simpl.
  - split; [done|split; [done|]]. split; [by left|].
    intros [H|[sv [c [Hsv _]]]]; [exact H|set_solver].
  - destruct (IH (BLEClient.mkBle (BLEClient.client s) (BLEClient.connected s) (<[u:=chars]> (BLEClient.services s))
        (fold_left (fun m (c : string * list string) => <[fst c := snd c]> m) chars
           (BLEClient.characteristics s)))) as [Hc [Hk Hch]].
    split; [exact Hc|split; [exact Hk|]]. rewrite Hch. simpl. rewrite store_chars_known.
    split.
    + intros [[H|[c [Hc' Hf]]]|[sv [c [Hsv [Hc' Hf]]]]]; [by left| |].
      * right. exists (u, chars), c. split; [set_solver|done].
      * right. exists sv, c. split; [set_solver|done].
    + intros [H|[sv [c [Hsv [Hc' Hf]]]]]; [by left; left|].
      apply elem_of_cons in Hsv as [->|Hsv].
      * left. right. eauto.
      * right. eauto.
Qed.

(** After a [connect] that returned [True] the client is ready for I/O, and
    it knows a characteristic exactly when it knew it before or a
    discovered service lists it. *)
Theorem connect_then_ready (s : BLEClient.ble_state) (connect_ok : bool)
    (discovered : option (list BLEClient.service)) uuid :
  fst (fst (BLEClient.connect s connect_ok discovered)) = Ret true ->
  BLEClientOps.ready (snd (fst (BLEClient.connect s connect_ok discovered))) = true /\
  (BLEClientOps.has_char (snd (fst (BLEClient.connect s connect_ok discovered))) uuid = true
   <-> is_Some (BLEClient.characteristics s !! uuid) \/
       exists svcs sv c, discovered = Some svcs /\ sv ∈ svcs /\ c ∈ snd sv /\ fst c = uuid).
Proof.
  unfold BLEClient.connect. destruct connect_ok; [|discriminate]. simpl.
  destruct discovered as [svcs|]; [|discriminate]. intros _. simpl.
  set (s2 := BLEClient.mkBle (Some true) (BLEClient.connected s) (BLEClient.services s) (BLEClient.characteristics s)).
  destruct (store_services_chars svcs s2 uuid) as [Hc [_ Hch]].
  unfold BLEClientOps.ready, BLEClientOps.has_char. simpl. rewrite Hc. split.
  - simpl. first [reflexivity | apply bool_decide_eq_true; eauto].
  - rewrite bool_decide_eq_true, Hch. simpl. split.
    + intros [H|[sv [c H]]]; [by left|right; exists svcs, sv, c; tauto].
    + intros [H|[svcs' [sv [c [Heq H]]]]]; [by left|]. injection Heq as <-. right; eauto.
Qed.

Lemma connect_then_ready_witness :
  BLEClientOps.has_char (snd (fst (BLEClient.connect ble_idle true (Some [svc_cmd]))))
    BLEClientOps.COMMAND_CHAR_UUID = true.
Proof.
  apply (proj2 (proj2 (connect_then_ready ble_idle true (Some [svc_cmd])
                         BLEClientOps.COMMAND_CHAR_UUID eq_refl))).
  right. exists [svc_cmd], svc_cmd, (BLEClientOps.COMMAND_CHAR_UUID, ["write"]).
  split; [reflexivity|split; [left|split; [left|reflexivity]]].
Defined.

(** The client's [send_command] writes at most one frame, only to the
    command characteristic and only a frame that [_build_command_packet]
    produced; it reports [True] only when that write went through, and it
    does no I/O at all when not connected. *)
Theorem ble_send_command_contract (pack_f : pyval -> outcome (list Z)) (write_ok : bool)
    (s : BLEClient.ble_state) (command_type : Z) (data : dict) :
  let r := BLEClientOps.send_command pack_f write_ok s command_type data in
  (forall e, e ∈ snd r -> exists pkt,
     e = BLEClientOps.GattWrite BLEClientOps.COMMAND_CHAR_UUID pkt /\
     BLEClient.build_command_packet pack_f command_type data = Ret pkt) /\
  (length (snd r) <= 1)%nat /\
  (fst r = true -> write_ok = true /\ snd r <> []) /\
  (BLEClientOps.ready s = false -> r = (false, [])).
Proof.
  intros r. subst r. unfold BLEClientOps.send_command.
  destruct (BLEClientOps.ready s); simpl.
  - destruct (BLEClient.build_command_packet pack_f command_type data) as [pkt|e] eqn:E.
    + destruct (BLEClientOps.has_char s BLEClientOps.COMMAND_CHAR_UUID); simpl.
      * split; [intros e He; apply list_elem_of_singleton in He; subst; eauto|].
        split; [lia|split; [intros ->; split; [done|discriminate]|discriminate]].
      * split; [intros e He; set_solver|split; [lia|split; [discriminate|discriminate]]].
    + split; [intros e' He; set_solver|split; [simpl; lia|split; [discriminate|discriminate]]].
  - split; [intros e He; set_solver|split; [simpl; lia|split; [discriminate|done]]].
Qed.

Lemma ble_send_command_contract_witness :
  BLEClientOps.send_command pack_f_raising true ble_idle BLEClient.CMD_SET_DRIP ∅ = (false, []).
Proof.
  apply (proj2 (proj2 (proj2 (ble_send_command_contract pack_f_raising true ble_idle
                                BLEClient.CMD_SET_DRIP ∅)))).
  reflexivity.
Defined.


Lemma control_light_intensity (light_type : string) (intensity : Z) (duration : option Z) :
  BLEClientOps.control_light_data light_type intensity duration !! "intensity"
  = Some (PInt intensity).
Proof.
  unfold BLEClientOps.control_light_data.
  destruct duration as [d|]; [destruct (negb (d =? 0))|];
    rewrite ?lookup_insert_ne by discriminate; apply lookup_insert_eq.
Qed.

(** [control_light] sends the frame [0x10, intensity] whatever the light
    type and duration (neither reaches the frame); an intensity outside
    0..255 makes [struct.pack] fail, so nothing is written and it returns
    [False]. *)
Theorem control_light_frame (pack_f : pyval -> outcome (list Z)) (write_ok : bool)
    (s : BLEClient.ble_state) (light_type : string) (intensity : Z) (duration : option Z) :
  BLEClientOps.ready s = true -> BLEClientOps.has_char s BLEClientOps.COMMAND_CHAR_UUID = true ->
  (0 <= intensity <= 255 ->
   BLEClientOps.control_light pack_f write_ok s light_type intensity duration
   = (write_ok, [BLEClientOps.GattWrite BLEClientOps.COMMAND_CHAR_UUID [0x10; intensity]])) /\
  (~ (0 <= intensity <= 255) ->
   BLEClientOps.control_light pack_f write_ok s light_type intensity duration = (false, [])).
Proof.
  intros Hr Hc. unfold BLEClientOps.control_light, BLEClientOps.send_command,
    BLEClient.build_command_packet.
  rewrite Hr, control_light_intensity. simpl. split.
  - intros Hb. replace ((0 <=? intensity) && (intensity <=? 255)) with true
      by (symmetry; apply andb_true_intro; split; apply Z.leb_le; lia).
    rewrite Hc. reflexivity.
  - intros Hb. replace ((0 <=? intensity) && (intensity <=? 255)) with false; [reflexivity|].
    symmetry. apply not_true_iff_false. intros H.
    apply andb_true_iff in H as [H1 H2]. apply Z.leb_le in H1, H2. lia.
Qed.

Lemma control_light_frame_witness :
  BLEClientOps.control_light pack_f_raising true ble_ready "uv" 300 (Some 10) = (false, []).
Proof.
  apply (proj2 (control_light_frame pack_f_raising true ble_ready "uv" 300 (Some 10)
                  eq_refl eq_refl)). lia.
Defined.

(** [control_climate] sends [0x20] followed by [struct.pack('f')] of the
    temperature: humidity and fan speed never reach the frame, and a missing
    temperature is sent as 0. *)
Theorem control_climate_temperature_only (pack_f : pyval -> outcome (list Z)) (write_ok : bool)
    (s : BLEClient.ble_state) (temperature humidity fan_speed : option pyval) :
  BLEClientOps.control_climate pack_f write_ok s temperature humidity fan_speed
  = BLEClientOps.send_command pack_f write_ok s BLEClient.CMD_SET_TEMPERATURE
      (<["temperature" := default (PInt 0) temperature]> ∅) /\
  BLEClientOps.control_climate pack_f write_ok s temperature humidity fan_speed
  = (if BLEClientOps.ready s then
       match pack_f (default (PInt 0) temperature) with
       | Raise _ => (false, [])
       | Ret bs =>
           if BLEClientOps.has_char s BLEClientOps.COMMAND_CHAR_UUID
           then (write_ok, [BLEClientOps.GattWrite BLEClientOps.COMMAND_CHAR_UUID (0x20 :: bs)])
           else (false, [])
       end
     else (false, [])).
Proof.
  assert (Ht : BLEClientOps.control_climate_data temperature humidity fan_speed !! "temperature"
               = temperature).
  { unfold BLEClientOps.control_climate_data, BLEClientOps.put_opt.
    destruct fan_speed, humidity, temperature; reflexivity. }
  unfold BLEClientOps.control_climate, BLEClientOps.send_command, BLEClient.build_command_packet.
  simpl. rewrite Ht, lookup_insert_eq. simpl. split; [reflexivity|].
  destruct (BLEClientOps.ready s); simpl; [|reflexivity].
  destruct (pack_f (default (PInt 0) temperature)); reflexivity.
Qed.

(** [control_water] always sends the one-byte frame [0x40]: neither the
    drip rate nor the flow rate is encoded. *)
Theorem control_water_fixed_frame (pack_f : pyval -> outcome (list Z)) (write_ok : bool)
    (s : BLEClient.ble_state) (drip_rate flow_rate : option pyval) :
  BLEClientOps.control_water pack_f write_ok s drip_rate flow_rate
  = (if BLEClientOps.ready s && BLEClientOps.has_char s BLEClientOps.COMMAND_CHAR_UUID
     then (write_ok, [BLEClientOps.GattWrite BLEClientOps.COMMAND_CHAR_UUID [0x40]])
     else (false, [])).
Proof.
  unfold BLEClientOps.control_water, BLEClientOps.send_command, BLEClient.build_command_packet.
  simpl. destruct (BLEClientOps.ready s); reflexivity.
Qed.

(** The two reads never look at the bytes received: a [read_sensor_data]
    that returns a reading returns the placeholder values with the loop's
    clock, and a [read_device_info] that returns a device returns the fixed
    controller description for the given address; when not connected both
    return [None] without I/O. *)
Theorem ble_reads_ignore_payload (s : BLEClient.ble_state) (read_result : option (list Z))
    (now : Z) (addr : string) :
  (forall sd, fst (BLEClientOps.read_sensor_data s read_result now) = Some sd ->
     sd = BLEClient.parse_sensor_data [] now) /\
  (forall info, fst (BLEClientOps.read_device_info s addr read_result) = Some info ->
     info = BLEClientOps.mkDevice addr "MarsPro Controller" BLEClientOps.CONTROLLER
              [BLEClientOps.LIGHTING; BLEClientOps.CLIMATE; BLEClientOps.WATER;
               BLEClientOps.AIR; BLEClientOps.HEATING] (Some "1.3.2") None None) /\
  (BLEClientOps.ready s = false ->
     BLEClientOps.read_sensor_data s read_result now = (None, []) /\
     BLEClientOps.read_device_info s addr read_result = (None, [])).
Proof.
  unfold BLEClientOps.read_sensor_data, BLEClientOps.read_device_info.
  destruct (BLEClientOps.ready s); simpl.
  - split; [|split; [|discriminate]].
    + intros sd. destruct (BLEClientOps.has_char s BLEClientOps.DATA_CHAR_UUID);
        [destruct read_result|]; simpl; intros H;
        unfold BLEClient.parse_sensor_data in *; congruence.
    + intros info. destruct (BLEClientOps.has_char s BLEClientOps.STATUS_CHAR_UUID);
        [destruct read_result|]; simpl; intros H; congruence.
  - split; [discriminate|split; [discriminate|done]].
Qed.

Lemma ble_reads_ignore_payload_witness :
  BLEClientOps.read_sensor_data ble_idle (Some [0x01]) 7 = (None, []) /\
  BLEClientOps.read_device_info ble_idle "AA:BB" (Some [0x01]) = (None, []).
Proof.
  apply (proj2 (proj2 (ble_reads_ignore_payload ble_idle (Some [0x01]) 7 "AA:BB"))).
  reflexivity.
Defined.


(** [connect] and [disconnect] keep the client's invariant that a
    connected client has a BleakClient; under it, [disconnect] drops the
    link but keeps the discovered services and characteristics, a second
    [disconnect] does nothing, and every later command returns [False]
    without I/O. *)
Theorem ble_disconnect_then_send (s : BLEClient.ble_state) (pack_f : pyval -> outcome (list Z))
    (write_ok : bool) (command_type : Z) (data : dict) :
  let inv st := (BLEClient.connected st = true -> is_Some (BLEClient.client st)) in
  (forall ok disc, inv s -> inv (snd (fst (BLEClient.connect s ok disc)))) /\
  (inv s -> inv (fst (BLEClientOps.disconnect s))) /\
  (inv s ->
   let s' := fst (BLEClientOps.disconnect s) in
   BLEClient.connected s' = false /\
   BLEClient.characteristics s' = BLEClient.characteristics s /\
   BLEClient.services s' = BLEClient.services s /\
   BLEClientOps.disconnect s' = (s', []) /\
   BLEClientOps.send_command pack_f write_ok s' command_type data = (false, [])).
Proof.
  intros inv. subst inv. cbv beta. split; [|split].
  - intros ok disc Hi. unfold BLEClient.connect.
    destruct ok; simpl; [|intros; eauto].
    destruct disc as [svcs|]; simpl; [|intros; eauto].
    destruct (store_services_chars svcs
      (BLEClient.mkBle (Some true) (BLEClient.connected s) (BLEClient.services s)
         (BLEClient.characteristics s)) "") as [Hc _].
    rewrite Hc. simpl. eauto.
  - intros Hi. unfold BLEClientOps.disconnect.
    destruct (BLEClientOps.ready s); simpl; [discriminate|exact Hi].
  - intros Hi. unfold BLEClientOps.disconnect, BLEClientOps.ready in *.
    destruct (BLEClient.connected s) eqn:Hc.
    + destruct Hi as [c Hcl]; [reflexivity|]. rewrite Hcl. simpl.
      unfold BLEClientOps.send_command, BLEClientOps.ready. simpl.
      repeat split.
    + simpl. unfold BLEClientOps.send_command, BLEClientOps.ready. rewrite Hc. simpl.
      repeat split.
Qed.

Lemma ble_disconnect_then_send_witness :
  BLEClientOps.send_command pack_f_raising true (fst (BLEClientOps.disconnect ble_ready))
    BLEClient.CMD_SET_DRIP ∅ = (false, []).
Proof.
  apply (proj2 (proj2 (proj2 (proj2 (proj2 (proj2 (ble_disconnect_then_send ble_ready
           pack_f_raising true BLEClient.CMD_SET_DRIP ∅)) ltac:(intros; eexists; reflexivity)))))).
Defined.

Lemma prefix_app_l (a b h : string) :
  String.prefix (a ++ b) h = true -> String.prefix a h = true.
Proof.
  revert h. induction a as [|c a IH]; intros h H; [destruct h; reflexivity|].
  destruct h as [|c' h]; [discriminate|].
  change (String.prefix (String c (a ++ b)) (String c' h) = true) in H.
  revert H. cbn [String.prefix].
  destruct (Ascii.ascii_dec c c'); [apply IH|discriminate].
Qed.

Lemma contains_app_l (a b h : string) :
  Scanner.contains (a ++ b) h = true -> Scanner.contains a h = true.
Proof.
  assert (Eq : forall n h, Scanner.contains n h = String.prefix n h ||
            match h with EmptyString => false | String _ rest => Scanner.contains n rest end)
    by (intros n [|? ?]; reflexivity).
  induction h as [|c h IH]; intros H; rewrite Eq in H |- *;
    apply orb_true_iff in H as [H|H]; apply orb_true_iff.
  - left. exact (prefix_app_l a b _ H).
  - discriminate.
  - left. exact (prefix_app_l a b _ H).
  - right. exact (IH H).
Qed.

(** A scanned device is taken for a MarsPro device exactly when its
    lower-cased name contains "mars" (the "marspro" test adds nothing), so a
    device that advertises no name never is. *)
Theorem marspro_match_is_mars (d : Scanner.ble_device) :
  Scanner.is_marspro_device d = Scanner.contains "mars" (Scanner.lower (default "" (Scanner.dev_name d))) /\
  (Scanner.dev_name d = None -> Scanner.is_marspro_device d = false).
Proof.
  unfold Scanner.is_marspro_device.
  destruct (Scanner.contains "marspro" (Scanner.lower (default "" (Scanner.dev_name d)))) eqn:E.
  - apply (contains_app_l "mars" "pro") in E. rewrite E. split; [reflexivity|].
    intros Hn. rewrite Hn in E. discriminate.
  - simpl. split; [reflexivity|]. intros ->. reflexivity.
Qed.

Lemma marspro_match_is_mars_witness :
  Scanner.is_marspro_device (Scanner.mkBleDevice "AA:BB" None (-60)) = false.
Proof. apply (proj2 (marspro_match_is_mars (Scanner.mkBleDevice "AA:BB" None (-60)))). reflexivity. Defined.

(** [scan_for_devices] returns the whole accumulated list, not just this
    scan's matches: each successful scan appends the matches to what earlier
    scans found, so scanning the same devices twice lists each match twice;
    a failed scan returns [] and keeps the list. *)
Theorem scan_accumulates (old : list BLEClientOps.marspro_device)
    (devs : list Scanner.ble_device) (e : exc) :
  let found := map Scanner.create_marspro_device (filter Scanner.is_marspro_device devs) in
  Scanner.scan_for_devices old (Raise e) = ([], old) /\
  Scanner.scan_for_devices old (Ret devs) = (old ++ found, old ++ found) /\
  fst (Scanner.scan_for_devices (snd (Scanner.scan_for_devices old (Ret devs))) (Ret devs))
  = old ++ found ++ found /\
  (forall x, x ∈ found <->
     exists d, d ∈ devs /\ Scanner.is_marspro_device d = true /\
       x = BLEClientOps.mkDevice (Scanner.dev_address d)
             (Scanner.name_or (Scanner.dev_name d) "Unknown MarsPro Device")
             BLEClientOps.CONTROLLER [BLEClientOps.LIGHTING; BLEClientOps.CLIMATE; BLEClientOps.WATER]
             None None (Some (Scanner.dev_rssi d))).
Proof.
  intros found. split; [reflexivity|split; [reflexivity|split]].
  - simpl. rewrite app_assoc. reflexivity.
  - intros x. subst found. rewrite list_elem_of_fmap. split.
    + intros [d [-> Hd]]. apply list_elem_of_filter in Hd as [Hm Hd].
      exists d. split; [exact Hd|split; [apply Is_true_true; exact Hm|reflexivity]].
    + intros [d [Hd [Hm ->]]]. exists d. split; [reflexivity|].
      apply list_elem_of_filter. split; [apply Is_true_true; exact Hm|exact Hd].
Qed.
